(** * The outbound media relay of [outbound.js]

    A shallow embedding of the WebSocket route [/outbound-media-stream]:
    the per-call closure variables, the handlers registered on the
    telephony socket [ws] and on the agent socket [elevenLabsWs], the
    asynchronous [setupElevenLabs] and the two [setTimeout] callbacks.

    Handlers are functions in a small monad that threads the session,
    accumulates the calls made on the two sockets and on the timer API,
    and can throw (a JavaScript exception).  The environment (socket
    [readyState]s, pending timers, pending fetches, the clock) is part of
    the state, and the events the runtime delivers are an inductive type
    consumed by [step]. *)

From Stdlib Require Import ZArith List String Ascii Bool Lia.
Import ListNotations.
Local Open Scope string_scope.
Local Open Scope Z_scope.
Local Open Scope list_scope.
Set Warnings "-register-all".

(** ** JavaScript values, as produced by [JSON.parse] *)

Module JS.

(** Objects hold their own properties in insertion order, with distinct
    keys (what [JSON.parse] and an object literal produce).  Numbers are
    the integer-valued ones; the handlers only test a number for
    truthiness or copy it. *)
Inductive value : Type :=
| Undefined
| Null
| Bool (b : bool)
| Num (n : Z)
| Str (s : string)
| Arr (items : list value)
| Obj (fields : list (string * value)).

(** [ToBoolean]: the test made by [if (v)], [v || w] and [v && w]. *)
Definition truthy (v : value) : bool :=
  match v with
  | Undefined | Null => false
  | Bool b => b
  | Num n => negb (n =? 0)
  | Str s => negb (s =? EmptyString)%string
  | Arr _ | Obj _ => true
  end.

Fixpoint lookup (k : string) (fields : list (string * value)) : value :=
  match fields with
  | [] => Undefined
  | (k', v) :: rest => if (k =? k')%string then v else lookup k rest
  end.

(** [v.k]: [None] is the [TypeError] thrown on [null] and [undefined].
    None of the property names read by the program is defined on the
    prototypes of strings, arrays, numbers or booleans, so on those the
    read yields [undefined]. *)
Definition member (v : value) (k : string) : option value :=
  match v with
  | Undefined | Null => None
  | Obj fields => Some (lookup k fields)
  | _ => Some Undefined
  end.

(** [v?.k] *)
Definition opt_member (v : value) (k : string) : value :=
  match member v k with
  | Some x => x
  | None => Undefined
  end.

(** [a || b] *)
Definition or (a b : value) : value := if truthy a then a else b.

(** [v === "lit"] *)
Definition is_str (v : value) (lit : string) : bool :=
  match v with
  | Str s => (s =? lit)%string
  | _ => false
  end.

End JS.

(** ** The base64 codec of [Buffer]

    [Buffer.from(s, "base64")] and [buf.toString("base64")] belong to the
    platform.  The encoder is the RFC 4648 one, with padding.  The decoder
    is the forgiving one of the platform: it reads every UTF-16 code unit
    of the text through its low eight bits, skips every character outside
    the alphabet, reads [-] and [_] as [+] and [/], stops at the first [=]
    and turns a trailing group of two or three characters into one or two
    bytes.  Bytes are integers in [0, 256). *)

Module Base64.

Definition alphabet : string :=
  "ABCDEFGHIJKLMNOPQRSTUVWXYZabcdefghijklmnopqrstuvwxyz0123456789+/".

Definition pad : ascii := "="%char.

Definition b64char (n : Z) : ascii :=
  match String.get (Z.to_nat n) alphabet with
  | Some c => c
  | None => pad
  end.

Definition code (c : ascii) : Z := Z.of_N (N_of_ascii c).

Definition unbase64 (c : ascii) : option Z :=
  let n := code c in
  if (65 <=? n) && (n <=? 90) then Some (n - 65)
  else if (97 <=? n) && (n <=? 122) then Some (n - 71)
  else if (48 <=? n) && (n <=? 57) then Some (n + 4)
  else if (n =? 43) || (n =? 45) then Some 62
  else if (n =? 47) || (n =? 95) then Some 63
  else None.

(** The legal characters of the input up to the first [=], as 6-bit
    values. *)
Fixpoint sextets (s : string) : list Z :=
  match s with
  | EmptyString => []
  | String c rest =>
      if Ascii.eqb c pad then []
      else match unbase64 c with
           | Some v => v :: sextets rest
           | None => sextets rest
           end
  end.

(** A JavaScript string is a sequence of UTF-16 code units.  The strings
    of this development hold the UTF-8 bytes of the text, and [units]
    gives the code units of a text so written: one unit for a sequence of
    one, two or three bytes (a lone surrogate included), a surrogate pair
    for a sequence of four bytes.  A byte that opens no complete sequence
    counts as a unit of its own. *)
Definition cont (b : ascii) : Z := Z.land (code b) 63.

Definition surrogates (cp : Z) : list Z :=
  if cp <? 65536 then [cp]
  else [55296 + Z.shiftr (cp - 65536) 10; 56320 + Z.land (cp - 65536) 1023].

Fixpoint units (s : string) : list Z :=
  match s with
  | EmptyString => []
  | String a rest =>
      let x := code a in
      if x <? 192 then x :: units rest
      else if x <? 224 then
        match rest with
        | String b rest1 =>
            Z.lor (Z.shiftl (Z.land x 31) 6) (cont b) :: units rest1
        | _ => x :: units rest
        end
      else if x <? 240 then
        match rest with
        | String b (String c rest2) =>
            Z.lor (Z.shiftl (Z.land x 15) 12)
              (Z.lor (Z.shiftl (cont b) 6) (cont c)) :: units rest2
        | _ => x :: units rest
        end
      else
        match rest with
        | String b (String c (String d rest3)) =>
            surrogates
              (Z.lor (Z.shiftl (Z.land x 7) 18)
                 (Z.lor (Z.shiftl (cont b) 12)
                    (Z.lor (Z.shiftl (cont c) 6) (cont d))))
            ++ units rest3
        | _ => x :: units rest
        end
  end.

(** The character the decoder sees for a code unit: its low eight bits. *)
Definition low8 (u : Z) : ascii := ascii_of_N (Z.to_N (Z.land u 255)).

Fixpoint chars (l : list Z) : string :=
  match l with
  | [] => EmptyString
  | u :: rest => String (low8 u) (chars rest)
  end.

(** The text as the decoder reads it, one character for each code unit. *)
Definition narrow (s : string) : string := chars (units s).

Definition byte1 (a b : Z) : Z :=
  Z.lor (Z.shiftl (Z.land a 63) 2) (Z.shiftr (Z.land b 48) 4).
Definition byte2 (b c : Z) : Z :=
  Z.lor (Z.shiftl (Z.land b 15) 4) (Z.shiftr (Z.land c 60) 2).
Definition byte3 (c d : Z) : Z :=
  Z.lor (Z.shiftl (Z.land c 3) 6) (Z.land d 63).

Fixpoint unpack (l : list Z) : list Z :=
  match l with
  | a :: b :: c :: d :: rest =>
      byte1 a b :: byte2 b c :: byte3 c d :: unpack rest
  | [a; b; c] => [byte1 a b; byte2 b c]
  | [a; b] => [byte1 a b]
  | _ => []
  end.

(** [Buffer.from(s, "base64")] *)
Definition decode (s : string) : list Z := unpack (sextets (narrow s)).

Definition enc1 (x : Z) : ascii := b64char (Z.shiftr x 2).
Definition enc2 (x y : Z) : ascii :=
  b64char (Z.lor (Z.shiftl (Z.land x 3) 4) (Z.shiftr y 4)).
Definition enc3 (y z : Z) : ascii :=
  b64char (Z.lor (Z.shiftl (Z.land y 15) 2) (Z.shiftr z 6)).
Definition enc4 (z : Z) : ascii := b64char (Z.land z 63).

(** [buf.toString("base64")] *)
Fixpoint encode (bytes : list Z) : string :=
  match bytes with
  | x :: y :: z :: rest =>
      String (enc1 x) (String (enc2 x y) (String (enc3 y z)
        (String (enc4 z) (encode rest))))
  | [x; y] =>
      String (enc1 x) (String (enc2 x y) (String (enc3 y 0)
        (String pad EmptyString)))
  | [x] =>
      String (enc1 x) (String (enc2 x 0) (String pad
        (String pad EmptyString)))
  | [] => EmptyString
  end.

(** The round trip made on every telephony media payload. *)
Definition reencode (s : string) : string := encode (decode s).

(** A character of the standard alphabet. *)
Definition is_std (c : ascii) : bool :=
  match unbase64 c with
  | Some _ => negb (code c =? 45) && negb (code c =? 95)
  | None => false
  end.

Definition sextet_of (c : ascii) : Z :=
  match unbase64 c with
  | Some v => v
  | None => 0
  end.

(** The last group of four characters of an RFC 4648 encoding: unused
    low bits of the last sextet are zero. *)
Definition valid_last (c1 c2 c3 c4 : ascii) : bool :=
  is_std c1 && is_std c2 &&
  (if Ascii.eqb c4 pad then
     if Ascii.eqb c3 pad then Z.land (sextet_of c2) 15 =? 0
     else is_std c3 && (Z.land (sextet_of c3) 3 =? 0)
   else is_std c3 && is_std c4).

(** A valid base64 string: the RFC 4648 encoding of some byte sequence
    (standard alphabet, length a multiple of four, padding only at the
    end, zero pad bits). *)
Fixpoint valid (s : string) : bool :=
  match s with
  | EmptyString => true
  | String c1 (String c2 (String c3 (String c4 rest))) =>
      match rest with
      | EmptyString => valid_last c1 c2 c3 c4
      | _ => is_std c1 && is_std c2 && is_std c3 && is_std c4 && valid rest
      end
  | _ => false
  end.

Definition is_byte (b : Z) : Prop := 0 <= b < 256.

(** The 6-bit values, for checks by enumeration. *)
Definition range64 : list Z := map Z.of_nat (seq 0 64).

(** The byte values. *)
Definition range256 : list Z := map Z.of_nat (seq 0 256).

End Base64.

(** ** The relay: state, calls, monad *)

Module Relay.
Import JS.

(** An agent socket is named by its creation rank. *)
Definition conn := nat.

Inductive ReadyState := CONNECTING | OPEN | CLOSING | CLOSED.

Definition is_open (r : ReadyState) : bool :=
  match r with OPEN => true | _ => false end.

(** The two callbacks handed to [setTimeout]. *)
Inductive TimerAction :=
| RunSetup          (* setTimeout(setupElevenLabs, 3000) *)
| CloseTelephony.   (* the arrow function of the close handler *)

(** What a handler does to the outside: every call on [console], on the
    two sockets, on [fetch] and on the timer API, in program order.
    [WsSend v] is [ws.send(JSON.stringify(v))], [AgentSend c v] is
    [send(JSON.stringify(v))] on agent socket [c]. *)
Inductive Call :=
| Log (msg : string)
| LogError (msg : string)
| Stdout (text : string)
| WsSend (frame : value)
| WsClose
| AgentSend (c : conn) (message : value)
| AgentClose (c : conn) (code : Z) (reason : string)
| Fetch
| NewWebSocket (c : conn) (url : string)
| SetTimeout (action : TimerAction) (ms : Z)
| Uncaught.

(** The closure variables of the route handler, followed by the part of
    the runtime the handlers read: the [readyState] of the telephony
    socket and of every agent socket created so far, the number of
    [getSignedUrl] calls not yet settled, the pending timers with their
    due time, and the clock in milliseconds. *)
Record State := mkState {
  streamSid : value;
  callSid : value;
  elevenLabsWs : option conn;
  customParameters : value;
  audioPacketCount : Z;
  isCallActive : bool;
  wsReadyState : ReadyState;
  agents : list ReadyState;
  fetching : nat;
  timers : list (Z * TimerAction);
  clock : Z
}.

Definition set_streamSid (v : value) (s : State) : State :=
  mkState v (callSid s) (elevenLabsWs s) (customParameters s)
    (audioPacketCount s) (isCallActive s) (wsReadyState s) (agents s)
    (fetching s) (timers s) (clock s).
Definition set_callSid (v : value) (s : State) : State :=
  mkState (streamSid s) v (elevenLabsWs s) (customParameters s)
    (audioPacketCount s) (isCallActive s) (wsReadyState s) (agents s)
    (fetching s) (timers s) (clock s).
Definition set_elevenLabsWs (c : option conn) (s : State) : State :=
  mkState (streamSid s) (callSid s) c (customParameters s)
    (audioPacketCount s) (isCallActive s) (wsReadyState s) (agents s)
    (fetching s) (timers s) (clock s).
Definition set_customParameters (v : value) (s : State) : State :=
  mkState (streamSid s) (callSid s) (elevenLabsWs s) v
    (audioPacketCount s) (isCallActive s) (wsReadyState s) (agents s)
    (fetching s) (timers s) (clock s).
Definition set_isCallActive (b : bool) (s : State) : State :=
  mkState (streamSid s) (callSid s) (elevenLabsWs s) (customParameters s)
    (audioPacketCount s) b (wsReadyState s) (agents s)
    (fetching s) (timers s) (clock s).
Definition set_wsReadyState (r : ReadyState) (s : State) : State :=
  mkState (streamSid s) (callSid s) (elevenLabsWs s) (customParameters s)
    (audioPacketCount s) (isCallActive s) r (agents s)
    (fetching s) (timers s) (clock s).
Definition set_agents (l : list ReadyState) (s : State) : State :=
  mkState (streamSid s) (callSid s) (elevenLabsWs s) (customParameters s)
    (audioPacketCount s) (isCallActive s) (wsReadyState s) l
    (fetching s) (timers s) (clock s).
Definition set_fetching (n : nat) (s : State) : State :=
  mkState (streamSid s) (callSid s) (elevenLabsWs s) (customParameters s)
    (audioPacketCount s) (isCallActive s) (wsReadyState s) (agents s)
    n (timers s) (clock s).
Definition set_timers (l : list (Z * TimerAction)) (s : State) : State :=
  mkState (streamSid s) (callSid s) (elevenLabsWs s) (customParameters s)
    (audioPacketCount s) (isCallActive s) (wsReadyState s) (agents s)
    (fetching s) l (clock s).
Definition set_clock (t : Z) (s : State) : State :=
  mkState (streamSid s) (callSid s) (elevenLabsWs s) (customParameters s)
    (audioPacketCount s) (isCallActive s) (wsReadyState s) (agents s)
    (fetching s) (timers s) t.

(** A handler body: it may throw ([None]), it changes the state and it
    leaves a trace of calls.  State changes and calls made before a throw
    stay. *)
Definition M (A : Type) : Type := State -> option A * State * list Call.

Definition ret {A} (a : A) : M A := fun s => (Some a, s, []).

Definition bind {A B} (m : M A) (f : A -> M B) : M B :=
  fun s =>
    match m s with
    | (Some a, s1, t1) =>
        match f a s1 with
        | (r, s2, t2) => (r, s2, t1 ++ t2)
        end
    | (None, s1, t1) => (None, s1, t1)
    end.

Definition throw {A} : M A := fun s => (None, s, []).

(** [try { body } catch (error) { handler }] *)
Definition try_catch {A} (body handler : M A) : M A :=
  fun s =>
    match body s with
    | (Some a, s1, t1) => (Some a, s1, t1)
    | (None, s1, t1) =>
        match handler s1 with
        | (r, s2, t2) => (r, s2, t1 ++ t2)
        end
    end.

Definition call (c : Call) : M unit := fun s => (Some tt, s, [c]).
Definition read : M State := fun s => (Some s, s, []).
Definition write (f : State -> State) : M unit := fun s => (Some tt, f s, []).

(** A property read or a parse that throws when it yields [None]. *)
Definition unwrap {A} (o : option A) : M A :=
  match o with
  | Some a => ret a
  | None => throw
  end.

Definition when (b : bool) (m : M unit) : M unit := if b then m else ret tt.

Declare Scope relay_scope.
Delimit Scope relay_scope with relay.
Notation "x <- m ;; k" := (bind m (fun x => k))
  (at level 61, m at next level, right associativity) : relay_scope.
Notation "m ;; k" := (bind m (fun _ => k))
  (at level 61, right associativity) : relay_scope.
Local Open Scope relay_scope.

(** ** Socket and timer primitives *)

Definition agent_state (s : State) (c : conn) : option ReadyState :=
  nth_error (agents s) c.

Fixpoint update {A} (l : list A) (i : nat) (a : A) : list A :=
  match l, i with
  | [], _ => []
  | _ :: rest, O => a :: rest
  | x :: rest, S j => x :: update rest j a
  end.

Definition set_agent_state (c : conn) (r : ReadyState) (s : State) : State :=
  set_agents (update (agents s) c r) s.

(** [elevenLabsWs?.readyState === WebSocket.OPEN] *)
Definition agent_is_open (s : State) : bool :=
  match elevenLabsWs s with
  | Some c =>
      match agent_state s c with
      | Some r => is_open r
      | None => false
      end
  | None => false
  end.

(** [elevenLabsWs.send(JSON.stringify(message))]: the call goes to the
    socket the variable holds now; on [null] the read of [send] throws.
    [send] itself throws when that socket is still connecting; on a socket
    that is closing or closed it returns and the message is dropped. *)
Definition agent_send (message : value) : M unit :=
  s <- read ;;
  match elevenLabsWs s with
  | Some c =>
      call (AgentSend c message) ;;
      match agent_state s c with
      | Some CONNECTING => throw
      | _ => ret tt
      end
  | None => throw
  end.

(** [elevenLabsWs.close(code, reason)]: the socket starts closing. *)
Definition agent_close (code : Z) (reason : string) : M unit :=
  s <- read ;;
  match elevenLabsWs s with
  | Some c => call (AgentClose c code reason) ;; write (set_agent_state c CLOSING)
  | None => throw
  end.

(** [setTimeout(callback, ms)] *)
Definition set_timeout (a : TimerAction) (ms : Z) : M unit :=
  call (SetTimeout a ms) ;;
  write (fun s => set_timers (timers s ++ [(clock s + ms, a)]) s).

(** [new WebSocket(signedUrl)]: a fresh socket, connecting. *)
Definition new_websocket (url : string) : M conn :=
  s <- read ;;
  let c := List.length (agents s) in
  call (NewWebSocket c url) ;;
  write (set_agents (agents s ++ [CONNECTING])) ;;
  ret c.

(** ** The handlers *)

Section Handlers.

(** [Buffer.from(v, "base64")] on a first argument that is not a string
    (an array, an object, a number, ...): the bytes the platform builds,
    or [None] when it throws. *)
Variable Buffer_from : value -> option (list Z).

(** The outcome of [await getSignedUrl()] followed by
    [new WebSocket(signedUrl)]: the fetch fails (transport error, status
    not ok, unreadable body), or the constructor refuses the value it is
    given, or the socket is created. *)
Inductive FetchResult :=
| FetchFailed
| UrlRejected
| UrlAccepted (url : string).

(** [setupElevenLabs], up to its [await]: [getSignedUrl] issues the GET. *)
Definition setupElevenLabs : M unit :=
  call Fetch ;;
  write (fun s => set_fetching (S (fetching s)) s).

(** [setupElevenLabs], from the [await] on.  The four handlers are
    registered on the new socket; they are the same closures for every
    socket. *)
Definition setup_resume (r : FetchResult) : M unit :=
  try_catch
    (match r with
     | FetchFailed => call (LogError "Error getting signed URL:") ;; throw
     | UrlRejected => throw
     | UrlAccepted url =>
         c <- new_websocket url ;;
         write (set_elevenLabsWs (Some c))
     end)
    (call (LogError "[ElevenLabs] Setup error:")).

Definition dynamic_variables (s : State) : value :=
  let p := customParameters s in
  Obj [("client_id",
         or (or (opt_member p "client_id") (callSid s)) (Str "unknown_call"));
       ("phone_number", or (opt_member p "phone_number") (Str "unknown_number"));
       ("name", or (opt_member p "name") (Str "Cliente"));
       ("organization", or (opt_member p "organization") (Str "Datágora"));
       ("credit_amount", or (opt_member p "credit_amount") (Str "50000"))].

Definition initialConfig (s : State) : value :=
  Obj [("type", Str "conversation_initiation_client_data");
       ("dynamic_variables", dynamic_variables s)].

(** [elevenLabsWs.on("open", ...)] *)
Definition on_agent_open : M unit :=
  call (Log "[ElevenLabs] Connected to Conversational AI") ;;
  s <- read ;;
  call (Log "[ElevenLabs] Sending initial config with dynamic variables") ;;
  agent_send (initialConfig s).

Definition media_frame (sid payload : value) : value :=
  Obj [("event", Str "media"); ("streamSid", sid);
       ("media", Obj [("payload", payload)])].

Definition clear_frame (sid : value) : value :=
  Obj [("event", Str "clear"); ("streamSid", sid)].

Definition stop_frame (sid : value) : value :=
  Obj [("event", Str "stop"); ("streamSid", sid)].

Definition pong (event_id : value) : value :=
  Obj [("type", Str "pong"); ("event_id", event_id)].

(** [case "audio"] *)
Definition case_audio (message : value) : M unit :=
  s <- read ;;
  if truthy (streamSid s) then
    audio <- unwrap (member message "audio") ;;
    if truthy (opt_member audio "chunk") then
      chunk <- unwrap (member audio "chunk") ;;
      call (WsSend (media_frame (streamSid s) chunk))
    else
      audio_event <- unwrap (member message "audio_event") ;;
      if truthy (opt_member audio_event "audio_base_64") then
        data <- unwrap (member audio_event "audio_base_64") ;;
        call (WsSend (media_frame (streamSid s) data))
      else ret tt
  else call (Log "[ElevenLabs] Received audio but no StreamSid yet").

(** [case "interruption"] *)
Definition case_interruption : M unit :=
  s <- read ;;
  when (truthy (streamSid s)) (call (WsSend (clear_frame (streamSid s)))).

(** [case "ping"] *)
Definition case_ping (message : value) : M unit :=
  ping_event <- unwrap (member message "ping_event") ;;
  if truthy (opt_member ping_event "event_id") then
    event_id <- unwrap (member ping_event "event_id") ;;
    agent_send (pong event_id)
  else ret tt.

(** [switch (message.type)] *)
Definition dispatch (ty message : value) : M unit :=
  if is_str ty "conversation_initiation_metadata" then
    call (Log "[ElevenLabs] Received initiation metadata")
  else if is_str ty "audio" then case_audio message
  else if is_str ty "interruption" then case_interruption
  else if is_str ty "ping" then case_ping message
  else if is_str ty "agent_response" then call (Log "[Twilio] Agent response:")
  else if is_str ty "user_transcript" then call (Log "[Twilio] User transcript:")
  else call (Log "[ElevenLabs] Unhandled message type:").

(** [elevenLabsWs.on("message", ...)]; [data = None] when [JSON.parse]
    throws. *)
Definition on_agent_message (data : option value) : M unit :=
  try_catch
    (message <- unwrap data ;;
     ty <- unwrap (member message "type") ;;
     error_event <- unwrap (member message "error_event") ;;
     (if is_str ty "error" || is_str ty "user_transcript" || truthy error_event
      then call (Log "[ElevenLabs] FULL MESSAGE:")
      else call (Log "[ElevenLabs] Raw message:")) ;;
     dispatch ty message ;;
     call (Log "[ElevenLabs] Message received type:"))
    (call (LogError "[ElevenLabs] Error processing message:")).

(** [elevenLabsWs.on("error", ...)] *)
Definition on_agent_error : M unit :=
  call (LogError "[ElevenLabs] WebSocket error details:") ;;
  set_timeout RunSetup 3000.

(** [elevenLabsWs.on("close", ...)] *)
Definition on_agent_close (code : Z) (reason : string) : M unit :=
  call (Log "[ElevenLabs] Disconnected with code") ;;
  s <- read ;;
  when (isCallActive s && truthy (streamSid s))
    (call (Log "[Twilio] Ending call because ElevenLabs disconnected") ;;
     call (WsSend (stop_frame (streamSid s))) ;;
     write (set_isCallActive false) ;;
     set_timeout CloseTelephony 2000) ;;
  s <- read ;;
  if negb (code =? 1000) && isCallActive s then
    call (Log "[ElevenLabs] Attempting to reconnect in 3 seconds...") ;;
    set_timeout RunSetup 3000
  else
    call (Log "[ElevenLabs] Not reconnecting as call is no longer active").

(** The callbacks of the two [setTimeout] calls. *)
Definition fire (a : TimerAction) : M unit :=
  match a with
  | RunSetup => setupElevenLabs
  | CloseTelephony =>
      s <- read ;;
      when (is_open (wsReadyState s))
        (call WsClose ;; write (set_wsReadyState CLOSING))
  end.

(** [Buffer.from(payload, "base64").toString("base64")] *)
Definition buffer_roundtrip (payload : value) : M string :=
  match payload with
  | Str s => ret (Base64.reencode s)
  | other =>
      bytes <- unwrap (Buffer_from other) ;;
      ret (Base64.encode bytes)
  end.

Definition audioMessage (chunk : string) : value :=
  Obj [("user_audio_chunk", Str chunk)].

(** [case "start"] *)
Definition case_start (msg : value) : M unit :=
  start <- unwrap (member msg "start") ;;
  sid <- unwrap (member start "streamSid") ;;
  write (set_streamSid sid) ;;
  cid <- unwrap (member start "callSid") ;;
  write (set_callSid cid) ;;
  params <- unwrap (member start "customParameters") ;;
  write (set_customParameters params) ;;
  write (set_isCallActive true) ;;
  call (Log "[Twilio] Stream started") ;;
  call (Log "[Twilio] Start parameters:").

(** [case "media"] *)
Definition case_media (msg : value) : M unit :=
  s <- read ;;
  when (agent_is_open s)
    (media <- unwrap (member msg "media") ;;
     payload <- unwrap (member media "payload") ;;
     chunk <- buffer_roundtrip payload ;;
     call (Stdout ".") ;;
     agent_send (audioMessage chunk)).

(** [case "stop"] *)
Definition case_stop : M unit :=
  call (Log "[Twilio] Stream ended") ;;
  write (set_isCallActive false) ;;
  s <- read ;;
  when (agent_is_open s)
    (call (Log "[Twilio] Closing ElevenLabs connection because call ended") ;;
     agent_close 1000 "Call ended normally").

(** [ws.on("message", ...)] *)
Definition on_ws_message (data : option value) : M unit :=
  try_catch
    (msg <- unwrap data ;;
     event <- unwrap (member msg "event") ;;
     when (negb (is_str event "media")) (call (Log "[Twilio] Received event:")) ;;
     if is_str event "start" then case_start msg
     else if is_str event "media" then case_media msg
     else if is_str event "stop" then case_stop
     else call (Log "[Twilio] Unhandled event:"))
    (call (LogError "[Twilio] Error processing message:")).

(** [ws.on("close", ...)] *)
Definition on_ws_close : M unit :=
  call (Log "[Twilio] Client disconnected") ;;
  write (set_isCallActive false) ;;
  s <- read ;;
  when (agent_is_open s) (agent_close 1000 "Twilio client disconnected").

(** [ws.on("error", console.error)] *)
Definition on_ws_error : M unit := call (LogError EmptyString).

(** ** Events and the transition function *)

Inductive Event :=
| WsMessage (data : option value)
| WsError
| WsClosed
| FetchSettled (r : FetchResult)
| AgentOpen (c : conn)
| AgentMessage (c : conn) (data : option value)
| AgentError (c : conn)
| AgentClosed (c : conn) (code : Z) (reason : string)
| TimerFired (i : nat)
| Elapse (ms : Z).

(** A handler run from the event loop: an exception that escapes it is
    recorded. *)
Definition handle (m : M unit) (s : State) : State * list Call :=
  match m s with
  | (Some _, s1, t) => (s1, t)
  | (None, s1, t) => (s1, t ++ [Uncaught])
  end.

Definition is_closed (r : ReadyState) : bool :=
  match r with CLOSED => true | _ => false end.

Fixpoint remove_nth {A} (i : nat) (l : list A) : list A :=
  match l, i with
  | [], _ => []
  | _ :: rest, O => rest
  | x :: rest, S j => x :: remove_nth j rest
  end.

(** One event.  [None]: the runtime cannot deliver this event in this
    state (a message on a closed socket, a timer that is not due, a fetch
    that was never started). *)
Definition step (s : State) (e : Event) : option (State * list Call) :=
  match e with
  | WsMessage data =>
      if is_closed (wsReadyState s) then None
      else Some (handle (on_ws_message data) s)
  | WsError =>
      if is_closed (wsReadyState s) then None
      else Some (handle on_ws_error s)
  | WsClosed =>
      if is_closed (wsReadyState s) then None
      else Some (handle on_ws_close (set_wsReadyState CLOSED s))
  | FetchSettled r =>
      match fetching s with
      | O => None
      | S n => Some (handle (setup_resume r) (set_fetching n s))
      end
  | AgentOpen c =>
      match agent_state s c with
      | Some CONNECTING => Some (handle on_agent_open (set_agent_state c OPEN s))
      | _ => None
      end
  | AgentMessage c data =>
      match agent_state s c with
      | Some OPEN | Some CLOSING => Some (handle (on_agent_message data) s)
      | _ => None
      end
  | AgentError c =>
      match agent_state s c with
      | Some CONNECTING | Some OPEN | Some CLOSING =>
          Some (handle on_agent_error s)
      | _ => None
      end
  | AgentClosed c code reason =>
      match agent_state s c with
      | Some CONNECTING | Some OPEN | Some CLOSING =>
          Some (handle (on_agent_close code reason) (set_agent_state c CLOSED s))
      | _ => None
      end
  | TimerFired i =>
      match nth_error (timers s) i with
      | Some (due, a) =>
          if due <=? clock s
          then Some (handle (fire a) (set_timers (remove_nth i (timers s)) s))
          else None
      | None => None
      end
  | Elapse ms =>
      if 0 <=? ms then Some (set_clock (clock s + ms) s, []) else None
  end.

(** A sequence of events, with the calls of all of them in order. *)
Fixpoint run (s : State) (es : list Event) : option (State * list Call) :=
  match es with
  | [] => Some (s, [])
  | e :: rest =>
      match step s e with
      | Some (s1, t1) =>
          match run s1 rest with
          | Some (s2, t2) => Some (s2, t1 ++ t2)
          | None => None
          end
      | None => None
      end
  end.

(** The variables as the route handler declares them. *)
Definition fresh : State :=
  mkState Null Null None Null 0 false OPEN [] 0%nat [] 0.

(** The body of the route handler: the session right after the telephony
    platform has connected, with the first setup under way. *)
Definition connected : State * list Call :=
  handle (call (Log "[Server] Twilio connected to outbound media stream") ;;
          setupElevenLabs) fresh.

(** ** Observations on a trace *)

Definition is_ws_send (c : Call) : bool :=
  match c with WsSend _ => true | _ => false end.

Definition is_agent_send (c : Call) : bool :=
  match c with AgentSend _ _ => true | _ => false end.

(** Calls that reconnect the agent leg: the endpoint fetch and the
    opening of a socket. *)
Definition is_reconnect (c : Call) : bool :=
  match c with Fetch | NewWebSocket _ _ => true | _ => false end.

Definition is_set_timeout (a : TimerAction) (c : Call) : bool :=
  match c, a with
  | SetTimeout RunSetup _, RunSetup => true
  | SetTimeout CloseTelephony _, CloseTelephony => true
  | _, _ => false
  end.

Definition is_live (r : ReadyState) : bool :=
  match r with CONNECTING | OPEN => true | _ => false end.

(** The agent sockets that are connecting or open. *)
Definition live (s : State) : nat := List.length (filter is_live (agents s)).

(** The reconnection timers not yet fired. *)
Definition pending_setups (s : State) : nat :=
  List.length (filter (fun t => match snd t with RunSetup => true | _ => false end)
                 (timers s)).

(** Calls on the agent socket that carry a message or end the
    connection. *)
Definition is_agent_call (c : Call) : bool :=
  match c with AgentSend _ _ | AgentClose _ _ _ => true | _ => false end.

(** [m] run in [s] leaves the state as it is and makes no call selected
    by [P]. *)
Definition quiet {A} (P : Call -> bool) (m : M A) (s : State) : Prop :=
  snd (fst (m s)) = s /\ filter P (snd (m s)) = [].

(** [m] never changes the part [view] of the state and never makes a
    call selected by [P]. *)
Definition keeps {X A} (view : State -> X) (P : Call -> bool) (m : M A) : Prop :=
  forall s, view (snd (fst (m s))) = view s /\ filter P (snd (m s)) = [].

Definition nothing (c : Call) : bool := false.

(** The handle and the number of sockets. *)
Definition sockets (s : State) : option conn * nat :=
  (elevenLabsWs s, List.length (agents s)).

(** The last agent socket created. *)
Definition latest (s : State) : option conn :=
  match List.length (agents s) with
  | O => None
  | S n => Some n
  end.

Definition holds_latest (s : State) : Prop := elevenLabsWs s = latest s.

(** A telephony frame that sets the stream id: a [start] event. *)
Definition is_start (e : Event) : bool :=
  match e with
  | WsMessage (Some msg) =>
      match member msg "event" with
      | Some event => is_str event "start"
      | None => false
      end
  | _ => false
  end.

End Handlers.

(** ** Frames and sessions used in the scenarios *)

(** A platform on which [Buffer.from] refuses everything but a string. *)
Definition refuse : value -> option (list Z) := fun _ => None.

Definition start_frame (fields : list (string * value)) : value :=
  Obj [("event", Str "start"); ("start", Obj fields)].

(** [streamSid = "ST1"], [callSid = "CA1"], [customParameters = {name: "Ana"}] *)
Definition start_ST1 : value :=
  start_frame [("streamSid", Str "ST1"); ("callSid", Str "CA1");
               ("customParameters", Obj [("name", Str "Ana")])].

(** A start frame that carries no stream id. *)
Definition start_without_stream_id : value :=
  start_frame [("callSid", Str "CA1")].

Definition stop_event : value := Obj [("event", Str "stop")].

Definition media_event (payload : value) : value :=
  Obj [("event", Str "media"); ("media", Obj [("payload", payload)])].

Definition ping (id : value) : value :=
  Obj [("type", Str "ping"); ("ping_event", Obj [("event_id", id)])].

Definition audio_chunk (payload : value) : value :=
  Obj [("type", Str "audio"); ("audio", Obj [("chunk", payload)])].

Definition audio_event (payload : value) : value :=
  Obj [("type", Str "audio");
       ("audio_event", Obj [("audio_base_64", payload)])].

(** The session once the first socket is open and [start_ST1] has been
    handled. *)
Definition active_session : State :=
  mkState (Str "ST1") (Str "CA1") (Some 0%nat) (Obj [("name", Str "Ana")])
    0 true OPEN [OPEN] 0%nat [] 0.

(** A well-formed agent [audio] message carrying [payload]: the payload
    is a non-empty string, found under [audio.chunk], or under
    [audio_event.audio_base_64] when there is no [audio.chunk]. *)
Definition well_formed_audio (message : value) (payload : string) : Prop :=
  member message "type" = Some (Str "audio") /\
  payload <> EmptyString /\
  (opt_member (opt_member message "audio") "chunk" = Str payload \/
   (opt_member (opt_member message "audio") "chunk" = Undefined /\
    opt_member (opt_member message "audio_event") "audio_base_64"
      = Str payload)).

End Relay.

(** ** Views of the relay used by the further properties *)

Module RelayViews.
Import JS Relay.

(** [m] run in [s] leaves the state as it is and makes only calls that
    satisfy [Q]. *)
Definition yields {A} (Q : Call -> Prop) (m : M A) (s : State) : Prop :=
  snd (fst (m s)) = s /\ Forall Q (snd (m s)).

(** No exception escapes [m] run in [s]. *)
Definition settles {A} (m : M A) (s : State) : Prop := fst (fst (m s)) <> None.

(** What the agent message handler may do in session [s]: log, send to
    the telephony leg a [clear] frame or a [media] frame with a truthy
    payload, addressed to the stream of the session and only when that is
    set, and answer a ping on the socket the session holds. *)
Definition agent_message_call (s : State) (c : Call) : Prop :=
  match c with
  | Log _ | LogError _ => True
  | WsSend frame =>
      truthy (streamSid s) = true /\
      (frame = clear_frame (streamSid s) \/
       exists payload,
         truthy payload = true /\ frame = media_frame (streamSid s) payload)
  | AgentSend k message =>
      elevenLabsWs s = Some k /\
      exists id, truthy id = true /\ message = pong id
  | _ => False
  end.

(** The session after the teardown of the close handler. *)
Definition teardown (s : State) : State :=
  set_timers (timers s ++ [(clock s + 2000, CloseTelephony)])
    (set_isCallActive false s).

(** The session a start frame leaves. *)
Definition started (sid cid params : value) (s : State) : State :=
  set_isCallActive true
    (set_customParameters params (set_callSid cid (set_streamSid sid s))).

(** Calls a telephony frame never causes. *)
Definition beyond_telephony (c : Call) : bool :=
  match c with
  | WsSend _ | WsClose | Fetch | NewWebSocket _ _ | SetTimeout _ _
  | Uncaught => true
  | _ => false
  end.

(** What a telephony frame never touches. *)
Definition plumbing (s : State) :=
  (timers s, fetching s, sockets s, wsReadyState s).

Definition is_log (c : Call) : bool :=
  match c with Log _ | LogError _ => true | _ => false end.

(** A frame the telephony handler has no case for: not parsable, [null],
    or with an event other than the three it knows. *)
Definition unrecognised (data : option value) : Prop :=
  match data with
  | None => True
  | Some msg =>
      match member msg "event" with
      | None => True
      | Some event =>
          is_str event "start" = false /\ is_str event "media" = false /\
          is_str event "stop" = false
      end
  end.

End RelayViews.

Module RunViews.
Import JS Relay.

Definition is_fetch (c : Call) : bool :=
  match c with Fetch => true | _ => false end.

(** The endpoint fetches made. *)
Definition fetches (t : list Call) : nat := List.length (filter is_fetch t).

(** The reconnection timers set. *)
Definition scheduled (t : list Call) : nat :=
  List.length (filter (is_set_timeout RunSetup) t).

Definition is_agent_error (e : Event) : bool :=
  match e with AgentError _ => true | _ => false end.

(** The error events delivered. *)
Definition errors (es : list Event) : nat :=
  List.length (filter is_agent_error es).

(** A start frame as the telephony platform sends it: its
    [start.streamSid] is truthy.  Every other event qualifies. *)
Definition well_formed_start (e : Event) : bool :=
  match e with
  | WsMessage (Some msg) =>
      match member msg "event" with
      | Some event =>
          if is_str event "start"
          then truthy (opt_member (opt_member msg "start") "streamSid")
          else true
      | None => true
      end
  | _ => true
  end.

(** An active session has its stream id. *)
Definition active_has_stream (s : State) : Prop :=
  isCallActive s = true -> truthy (streamSid s) = true.

(** Which event may cause which call on the timer API, on [fetch] and on
    the socket constructor. *)
Definition bookkeeping_call (s : State) (e : Event) (c : Call) : Prop :=
  match c with
  | Fetch =>
      exists i due,
        e = TimerFired i /\ nth_error (timers s) i = Some (due, RunSetup)
  | NewWebSocket k url =>
      e = FetchSettled (UrlAccepted url) /\ k = List.length (agents s)
  | SetTimeout RunSetup ms =>
      ms = 3000 /\
      ((exists k, e = AgentError k) \/
       (exists k code reason, e = AgentClosed k code reason /\ code <> 1000))
  | SetTimeout CloseTelephony ms =>
      ms = 2000 /\ exists k code reason, e = AgentClosed k code reason
  | Uncaught =>
      exists k,
        e = AgentOpen k /\
        (elevenLabsWs s = None \/
         exists k',
           elevenLabsWs s = Some k' /\ k' <> k /\
           agent_state s k' = Some CONNECTING)
  | _ => True
  end.

(** Runs used in the examples. *)
Definition failing_call : list Event :=
  [FetchSettled (UrlAccepted "wss://agent/1"); AgentOpen 0%nat;
   WsMessage (Some start_ST1);
   AgentError 0%nat; AgentClosed 0%nat 1006 "lost";
   Elapse 3000; TimerFired 0%nat].

Definition stopped_call : list Event :=
  [WsMessage (Some stop_event); AgentClosed 0%nat 1000 "Call ended normally";
   WsClosed].

Definition early_audio : list Event :=
  [FetchSettled (UrlAccepted "wss://agent/1"); AgentOpen 0%nat;
   AgentMessage 0%nat (Some (audio_chunk (Str "aGVsbG8=")));
   AgentMessage 0%nat (Some (Obj [("type", Str "interruption")]));
   AgentClosed 0%nat 1006 "lost"].

Definition second_socket : list Event :=
  [FetchSettled (UrlAccepted "wss://agent/1"); AgentOpen 0%nat;
   AgentError 0%nat; Elapse 3000; TimerFired 0%nat;
   FetchSettled (UrlAccepted "wss://agent/2")].

(** The agent sockets that have raised their error event, in the order
    of the events. *)
Fixpoint failed (es : list Event) : list conn :=
  match es with
  | [] => []
  | AgentError c :: rest => c :: failed rest
  | _ :: rest => failed rest
  end.

(** Socket [k] is among [F]. *)
Definition has_failed (F : list conn) (k : conn) : bool :=
  existsb (Nat.eqb k) F.

(** No socket occurs twice in [l]. *)
Fixpoint distinct (l : list conn) : bool :=
  match l with
  | [] => true
  | c :: rest => negb (has_failed rest c) && distinct rest
  end.

(** The events as the telephony platform and the socket library deliver
    them: every start frame carries its stream id, and an agent socket
    raises its error event at most once (the library emits [error] once
    for a socket and from then on only closes it). *)
Definition disciplined (es : list Event) : bool :=
  forallb well_formed_start es && distinct (failed es).

(** The agent sockets in use among [l], the sockets of rank [k] and
    above: those that are not closed and have raised no error event. *)
Fixpoint in_use_from (k : conn) (F : list conn) (l : list ReadyState) : nat :=
  match l with
  | [] => 0%nat
  | r :: rest =>
      ((if is_closed r || has_failed F k then 0 else 1)
       + in_use_from (S k) F rest)%nat
  end.

Definition in_use (F : list conn) (s : State) : nat :=
  in_use_from 0%nat F (agents s).



(** A run outside that order of events: the first socket raises its
    error event twice. *)
Definition twice_failed_call : list Event :=
  [FetchSettled (UrlAccepted "wss://agent/1"); AgentOpen 0%nat;
   AgentError 0%nat; AgentError 0%nat; AgentClosed 0%nat 1006 "lost";
   Elapse 3000; TimerFired 0%nat; TimerFired 0%nat;
   FetchSettled (UrlAccepted "wss://agent/2");
   FetchSettled (UrlAccepted "wss://agent/3"); AgentOpen 2%nat].

Definition is_uncaught (c : Call) : bool :=
  match c with Uncaught => true | _ => false end.

End RunViews.

(** ** The signed URL, in detail *)

Module SignedUrl.
Import JS Relay.
Local Open Scope relay_scope.

(** How the GET of [getSignedUrl] ends: [fetch] rejects, or it resolves
    to a response with its [ok] flag and what [response.json()] resolves
    to ([None] when that rejects). *)
Inductive HttpOutcome :=
| NetworkError
| Response (ok : bool) (body : option value).

(** [getSignedUrl], from the [await fetch] on. *)
Definition getSignedUrl (o : HttpOutcome) : M value :=
  try_catch
    (match o with
     | NetworkError => throw
     | Response ok body =>
         if negb ok then throw
         else
           data <- unwrap body ;;
           unwrap (member data "signed_url")
     end)
    (call (LogError "Error getting signed URL:") ;; throw).

Section Constructor.

(** [new WebSocket(v)]: the URL the socket connects to, [None] when the
    constructor throws. *)
Variable WebSocket_accepts : value -> option string.

(** [setupElevenLabs], from its [await] on, with [getSignedUrl] and the
    constructor spelled out. *)
Definition setup_from_response (o : HttpOutcome) : M unit :=
  try_catch
    (signedUrl <- getSignedUrl o ;;
     match WebSocket_accepts signedUrl with
     | Some url =>
         c <- new_websocket url ;;
         write (set_elevenLabsWs (Some c))
     | None => throw
     end)
    (call (LogError "[ElevenLabs] Setup error:")).

(** The three-way outcome the relay distinguishes. *)
Definition settle (o : HttpOutcome) : FetchResult :=
  match o with
  | Response true (Some data) =>
      match member data "signed_url" with
      | Some v =>
          match WebSocket_accepts v with
          | Some url => UrlAccepted url
          | None => UrlRejected
          end
      | None => FetchFailed
      end
  | _ => FetchFailed
  end.

End Constructor.

Definition is_new_socket (c : Call) : bool :=
  match c with NewWebSocket _ _ => true | _ => false end.

(** A constructor that accepts the [wss:] strings it is given. *)
Definition accepts_strings (v : value) : option string :=
  match v with
  | Str s => Some s
  | _ => None
  end.

End SignedUrl.

(** ** The two HTTP routes of the outbound call *)

Module Routes.
Import JS.

Local Infix "+++" := String.append (at level 60, right associativity).

(** What a route handler answers. *)
Inductive Reply :=
| Send (code : Z) (body : value) (* reply.code(code).send(body), 200 if unset *)
| SendXml (text : string)        (* reply.type("text/xml").send(text) *)
| Throws.                        (* the handler throws before it replies *)

(** The argument of [twilioClient.calls.create]; the URL is kept as the
    text given to [new URL] and the pairs appended to its
    [searchParams], in order. *)
Record CallRequest := mkCallRequest {
  from : string;
  to : value;
  url : string * list (string * string)
}.

(** A destructuring default, [{ k = d } = o]: it applies to [undefined]
    only. *)
Definition default (v d : value) : value :=
  match v with
  | Undefined => d
  | _ => v
  end.


(** The names of the stream parameters, as both routes list them. *)
Definition parameter_names : list string :=
  ["phone_number"; "name"; "organization"; "credit_amount"; "client_id";
   "prompt"; "first_message"].



Section Platform.

(** [String(v)] for a value that is not a string, as a template literal
    and [searchParams.append] compute it. *)
Variable ToString : value -> string.

(** Whether [new URL(text)] accepts the text. *)
Variable URL_accepts : string -> bool.

(** The environment variable of that name. *)
Variable TWILIO_PHONE_NUMBER : string.

(** [twilioClient.calls.create]: the call it resolves to, [None] when it
    rejects. *)
Variable calls_create : CallRequest -> option value.

Definition to_string (v : value) : string :=
  match v with
  | Str s => s
  | other => ToString other
  end.

(** The defaults of the destructuring in [/outbound-call]. *)
Definition call_defaults : list (string * value) :=
  [("name", Str "Cliente"); ("organization", Str "Datágora");
   ("credit_amount", Str "50000"); ("client_id", Str EmptyString);
   ("prompt", Str EmptyString); ("first_message", Str EmptyString)].

(** What the call route puts in the URL for field [k] of the body, whose
    destructuring default is [d]. *)
Definition carried (body : value) (k : string) (d : value) : string :=
  to_string (default (opt_member body k) d).

(** The pairs appended to [twimlUrl.searchParams]. *)
Definition call_parameters (body : value) : list (string * string) :=
  ("phone_number", to_string (opt_member body "phone_number")) ::
  map (fun kd => (fst kd, carried body (fst kd) (snd kd))) call_defaults.

Definition failure : value :=
  Obj [("success", Bool false); ("error", Str "Failed to initiate call")].

(** The outcome of a request: what [console.error] logged, the request
    made to the telephony platform if any, and the reply. *)
Definition Outcome : Type := list string * option CallRequest * Reply.

(** [fastify.post("/outbound-call", ...)] *)
Definition outbound_call (body host : value) : Outcome :=
  match member body "phone_number" with
  | None => ([], None, Throws)
  | Some phone_number =>
      if negb (truthy phone_number) then
        ([], None, Send 400 (Obj [("error", Str "Phone number is required")]))
      else
        let text := "https://" +++ to_string host +++ "/outbound-call-twiml" in
        if URL_accepts text then
          let request :=
            mkCallRequest TWILIO_PHONE_NUMBER phone_number
              (text, call_parameters body) in
          match calls_create request with
          | Some call =>
              match member call "sid" with
              | Some sid =>
                  ([], Some request,
                   Send 200 (Obj [("success", Bool true);
                                  ("message", Str "Call initiated");
                                  ("callSid", sid)]))
              | None =>
                  (["Error initiating outbound call:"], Some request,
                   Send 500 failure)
              end
          | None =>
              (["Error initiating outbound call:"], Some request,
               Send 500 failure)
          end
        else (["Error initiating outbound call:"], None, Send 500 failure)
  end.

(** The values interpolated in the template, under their names. *)
Definition twiml_parameters (query : value) : list (string * string) :=
  map (fun k => (k, to_string (default (opt_member query k) (Str EmptyString))))
    parameter_names.


End Platform.

(** A parsed query string or a parameter map: every value a string. *)
Definition as_object (pairs : list (string * string)) : value :=
  Obj (map (fun kv => (fst kv, Str (snd kv))) pairs).

(** [v || d] on strings. *)
Definition or_else (v d : string) : string :=
  if (v =? EmptyString)%string then d else v.


(** A platform for the examples: numbers and the like print as ["?"],
    every URL is accepted, the platform creates every call. *)
Definition print_other : value -> string := fun _ => "?".
Definition any_url : string -> bool := fun _ => true.
Definition creates (sid : string) : CallRequest -> option value :=
  fun _ => Some (Obj [("sid", Str sid)]).

Definition call_Ana : value :=
  Obj [("phone_number", Str "+5215550100"); ("name", Str "Ana");
       ("organization", Str EmptyString)].

End Routes.

(** ** The sextets of the encoder *)

Module Printed.

(** The sextets the encoder prints, for bytes. *)
Definition s1 (x : Z) : Z := Z.shiftr x 2.
Definition s2 (x y : Z) : Z := Z.lor (Z.shiftl (Z.land x 3) 4) (Z.shiftr y 4).
Definition s3 (y z : Z) : Z := Z.lor (Z.shiftl (Z.land y 15) 2) (Z.shiftr z 6).
Definition s4 (z : Z) : Z := Z.land z 63.

End Printed.

(** * Properties *)

(** ** The base64 round trip *)

Module Base64Facts.
Import Base64.

Lemma in_range64 a : 0 <= a < 64 -> In a range64.
Proof.
  intros H. unfold range64.
  rewrite <- (Z2Nat.id a) by lia.
  apply in_map, in_seq. lia.
Qed.

Lemma in_range256 a : 0 <= a < 256 -> In a range256.
Proof.
  intros H. unfold range256.
  rewrite <- (Z2Nat.id a) by lia.
  apply in_map, in_seq. lia.
Qed.

Lemma forall2_range64 (P : Z -> Z -> bool) :
  forallb (fun a => forallb (P a) range64) range64 = true ->
  forall a b, 0 <= a < 64 -> 0 <= b < 64 -> P a b = true.
Proof.
  intros H a b Ha Hb.
  rewrite forallb_forall in H.
  specialize (H a (in_range64 a Ha)).
  rewrite forallb_forall in H.
  exact (H b (in_range64 b Hb)).
Qed.

Lemma forall3_range64 (P : Z -> Z -> Z -> bool) :
  forallb (fun a => forallb (fun b => forallb (P a b) range64) range64) range64
    = true ->
  forall a b c, 0 <= a < 64 -> 0 <= b < 64 -> 0 <= c < 64 -> P a b c = true.
Proof.
  intros H a b c Ha Hb Hc.
  rewrite forallb_forall in H.
  specialize (H a (in_range64 a Ha)).
  apply (forall2_range64 (P a) H); assumption.
Qed.

(** Packing four sextets into three bytes loses nothing: each sextet is
    read back from the bytes by the shifts and masks of the encoder. *)
Lemma sextet1 a b :
  0 <= a < 64 -> 0 <= b < 64 -> Z.shiftr (byte1 a b) 2 = a.
Proof.
  intros Ha Hb. apply Z.eqb_eq.
  revert a b Ha Hb.
  apply (forall2_range64 (fun a b => Z.shiftr (byte1 a b) 2 =? a)).
  vm_compute. reflexivity.
Qed.

Lemma sextet2 a b c :
  0 <= a < 64 -> 0 <= b < 64 -> 0 <= c < 64 ->
  Z.lor (Z.shiftl (Z.land (byte1 a b) 3) 4) (Z.shiftr (byte2 b c) 4) = b.
Proof.
  intros Ha Hb Hc. apply Z.eqb_eq.
  revert a b c Ha Hb Hc.
  apply (forall3_range64 (fun a b c =>
    Z.lor (Z.shiftl (Z.land (byte1 a b) 3) 4) (Z.shiftr (byte2 b c) 4) =? b)).
  vm_compute. reflexivity.
Qed.

Lemma sextet3 b c d :
  0 <= b < 64 -> 0 <= c < 64 -> 0 <= d < 64 ->
  Z.lor (Z.shiftl (Z.land (byte2 b c) 15) 2) (Z.shiftr (byte3 c d) 6) = c.
Proof.
  intros Hb Hc Hd. apply Z.eqb_eq.
  revert b c d Hb Hc Hd.
  apply (forall3_range64 (fun b c d =>
    Z.lor (Z.shiftl (Z.land (byte2 b c) 15) 2) (Z.shiftr (byte3 c d) 6) =? c)).
  vm_compute. reflexivity.
Qed.

Lemma sextet4 c d :
  0 <= c < 64 -> 0 <= d < 64 -> Z.land (byte3 c d) 63 = d.
Proof.
  intros Hc Hd. apply Z.eqb_eq.
  revert c d Hc Hd.
  apply (forall2_range64 (fun c d => Z.land (byte3 c d) 63 =? d)).
  vm_compute. reflexivity.
Qed.

(** With zero pad bits, the sextet that closes a short group is read back
    from the bytes alone. *)
Lemma sextet2_last a b :
  0 <= a < 64 -> 0 <= b < 64 -> Z.land b 15 = 0 ->
  Z.lor (Z.shiftl (Z.land (byte1 a b) 3) 4) (Z.shiftr 0 4) = b.
Proof.
  intros Ha Hb H0.
  assert (H : implb (Z.land b 15 =? 0)
    (Z.lor (Z.shiftl (Z.land (byte1 a b) 3) 4) (Z.shiftr 0 4) =? b) = true).
  { clear H0. revert a b Ha Hb.
    apply (forall2_range64 (fun a b => implb (Z.land b 15 =? 0)
      (Z.lor (Z.shiftl (Z.land (byte1 a b) 3) 4) (Z.shiftr 0 4) =? b))).
    vm_compute. reflexivity. }
  apply Z.eqb_eq in H0. rewrite H0 in H. apply Z.eqb_eq. exact H.
Qed.

Lemma sextet3_last b c :
  0 <= b < 64 -> 0 <= c < 64 -> Z.land c 3 = 0 ->
  Z.lor (Z.shiftl (Z.land (byte2 b c) 15) 2) (Z.shiftr 0 6) = c.
Proof.
  intros Hb Hc H0.
  assert (H : implb (Z.land c 3 =? 0)
    (Z.lor (Z.shiftl (Z.land (byte2 b c) 15) 2) (Z.shiftr 0 6) =? c) = true).
  { clear H0. revert b c Hb Hc.
    apply (forall2_range64 (fun b c => implb (Z.land c 3 =? 0)
      (Z.lor (Z.shiftl (Z.land (byte2 b c) 15) 2) (Z.shiftr 0 6) =? c))).
    vm_compute. reflexivity. }
  apply Z.eqb_eq in H0. rewrite H0 in H. apply Z.eqb_eq. exact H.
Qed.

(** A character of the standard alphabet is legal for the decoder, is not
    the padding character, and is the character the encoder prints for
    its value. *)
Lemma std_char c :
  is_std c = true ->
  unbase64 c = Some (sextet_of c) /\ Ascii.eqb c pad = false /\
  0 <= sextet_of c < 64 /\ b64char (sextet_of c) = c.
Proof.
  destruct c as [b0 b1 b2 b3 b4 b5 b6 b7].
  destruct b0, b1, b2, b3, b4, b5, b6, b7; vm_compute;
    first [ discriminate | intros _; repeat split; congruence ].
Qed.

(** A character below 192 is a code unit of its own, and the decoder
    reads it as it is; so for the characters of the alphabet and for the
    padding. *)
Lemma low8_code c : low8 (code c) = c.
Proof.
  destruct c as [b0 b1 b2 b3 b4 b5 b6 b7].
  destruct b0, b1, b2, b3, b4, b5, b6, b7; reflexivity.
Qed.

Lemma narrow_char c rest :
  (code c <? 192) = true -> narrow (String c rest) = String c (narrow rest).
Proof.
  intros H. unfold narrow. cbn [units]. rewrite H. cbn [chars].
  rewrite low8_code. reflexivity.
Qed.

Lemma std_low c : is_std c = true -> (code c <? 192) = true.
Proof.
  destruct c as [b0 b1 b2 b3 b4 b5 b6 b7].
  destruct b0, b1, b2, b3, b4, b5, b6, b7; vm_compute;
    first [ discriminate | reflexivity ].
Qed.

Lemma narrow_std c rest :
  is_std c = true -> narrow (String c rest) = String c (narrow rest).
Proof. intros H. apply narrow_char, std_low, H. Qed.

Lemma narrow_pad rest : narrow (String pad rest) = String pad (narrow rest).
Proof. apply narrow_char. reflexivity. Qed.

Lemma sextets_std c rest :
  is_std c = true -> sextets (String c rest) = sextet_of c :: sextets rest.
Proof.
  intros H. destruct (std_char c H) as (Hu & Hp & _).
  cbn [sextets]. rewrite Hp, Hu. reflexivity.
Qed.

Lemma sextets_pad rest : sextets (String pad rest) = [].
Proof. reflexivity. Qed.

(** A full group of four characters is decoded and printed back as it
    is, whatever follows. *)
Lemma reencode_group c1 c2 c3 c4 rest :
  is_std c1 = true -> is_std c2 = true -> is_std c3 = true ->
  is_std c4 = true ->
  reencode (String c1 (String c2 (String c3 (String c4 rest)))) =
  String c1 (String c2 (String c3 (String c4 (reencode rest)))).
Proof.
  intros H1 H2 H3 H4. unfold reencode, decode.
  rewrite !narrow_std by assumption.
  rewrite !sextets_std by assumption.
  destruct (std_char c1 H1) as (_ & _ & R1 & E1).
  destruct (std_char c2 H2) as (_ & _ & R2 & E2).
  destruct (std_char c3 H3) as (_ & _ & R3 & E3).
  destruct (std_char c4 H4) as (_ & _ & R4 & E4).
  cbn [unpack encode]. unfold enc1, enc2, enc3, enc4.
  rewrite sextet1, sextet2, sextet3, sextet4 by assumption.
  rewrite E1, E2, E3, E4. reflexivity.
Qed.

Lemma reencode_last c1 c2 c3 c4 :
  valid_last c1 c2 c3 c4 = true ->
  reencode (String c1 (String c2 (String c3 (String c4 EmptyString)))) =
  String c1 (String c2 (String c3 (String c4 EmptyString))).
Proof.
  unfold valid_last. intros H.
  apply andb_prop in H. destruct H as [H12 H].
  apply andb_prop in H12. destruct H12 as [H1 H2].
  destruct (std_char c1 H1) as (_ & _ & R1 & E1).
  destruct (std_char c2 H2) as (_ & _ & R2 & E2).
  destruct (Ascii.eqb_spec c4 pad) as [-> | N4].
  - destruct (Ascii.eqb_spec c3 pad) as [-> | N3].
    + apply Z.eqb_eq in H.
      unfold reencode, decode.
      rewrite !narrow_std by assumption. rewrite !narrow_pad.
      rewrite !sextets_std by assumption. rewrite sextets_pad.
      cbn [unpack encode]. unfold enc1, enc2.
      rewrite sextet1, sextet2_last by assumption.
      rewrite E1, E2. reflexivity.
    + apply andb_prop in H. destruct H as [H3 H0]. apply Z.eqb_eq in H0.
      destruct (std_char c3 H3) as (_ & _ & R3 & E3).
      unfold reencode, decode.
      rewrite !narrow_std by assumption. rewrite !narrow_pad.
      rewrite !sextets_std by assumption. rewrite sextets_pad.
      cbn [unpack encode]. unfold enc1, enc2, enc3.
      rewrite sextet1, sextet2, sextet3_last by assumption.
      rewrite E1, E2, E3. reflexivity.
  - apply andb_prop in H. destruct H as [H3 H4].
    rewrite reencode_group by assumption. reflexivity.
Qed.

Lemma reencode_valid_bounded n :
  forall s, (String.length s <= n)%nat -> valid s = true -> reencode s = s.
Proof.
  induction n as [n IH] using lt_wf_ind.
  intros s Hlen Hv.
  destruct s as [|c1 [|c2 [|c3 [|c4 rest]]]]; try discriminate.
  - reflexivity.
  - cbn [valid] in Hv. destruct rest as [|c5 rest'] eqn:Er.
    + apply reencode_last. exact Hv.
    + rewrite <- Er in *.
      repeat (apply andb_prop in Hv; destruct Hv as [Hv ?]).
      rewrite reencode_group by assumption.
      rewrite (IH (String.length rest)); try reflexivity; try assumption.
      cbn [String.length] in Hlen. lia.
Qed.

(** Decoding a valid base64 string and encoding the bytes again gives the
    string back. *)
Lemma reencode_valid s : valid s = true -> reencode s = s.
Proof. apply (reencode_valid_bounded (String.length s)). lia. Qed.

Lemma forall1_range256 (P : Z -> bool) :
  forallb P range256 = true -> forall x, is_byte x -> P x = true.
Proof.
  intros H x Hx. rewrite forallb_forall in H.
  exact (H x (in_range256 x Hx)).
Qed.

Lemma forall2_range256 (P : Z -> Z -> bool) :
  forallb (fun x => forallb (P x) range256) range256 = true ->
  forall x y, is_byte x -> is_byte y -> P x y = true.
Proof.
  intros H x y Hx Hy.
  apply (forall1_range256 (P x)); [|exact Hy].
  exact (forall1_range256 _ H x Hx).
Qed.

Lemma enc1_std x : is_byte x -> is_std (enc1 x) = true.
Proof.
  revert x. apply (forall1_range256 (fun x => is_std (enc1 x))).
  vm_compute. reflexivity.
Qed.

Lemma enc2_std x y : is_byte x -> is_byte y -> is_std (enc2 x y) = true.
Proof.
  revert x y. apply (forall2_range256 (fun x y => is_std (enc2 x y))).
  vm_compute. reflexivity.
Qed.

Lemma enc3_std y z : is_byte y -> is_byte z -> is_std (enc3 y z) = true.
Proof.
  revert y z. apply (forall2_range256 (fun y z => is_std (enc3 y z))).
  vm_compute. reflexivity.
Qed.

Lemma enc4_std z : is_byte z -> is_std (enc4 z) = true.
Proof.
  revert z. apply (forall1_range256 (fun z => is_std (enc4 z))).
  vm_compute. reflexivity.
Qed.

Lemma valid_last_one x :
  is_byte x -> valid_last (enc1 x) (enc2 x 0) pad pad = true.
Proof.
  revert x.
  apply (forall1_range256 (fun x => valid_last (enc1 x) (enc2 x 0) pad pad)).
  vm_compute. reflexivity.
Qed.

Lemma valid_last_two x y :
  is_byte x -> is_byte y ->
  valid_last (enc1 x) (enc2 x y) (enc3 y 0) pad = true.
Proof.
  revert x y.
  apply (forall2_range256
           (fun x y => valid_last (enc1 x) (enc2 x y) (enc3 y 0) pad)).
  vm_compute. reflexivity.
Qed.

Lemma valid_last_full c1 c2 c3 c4 :
  is_std c1 = true -> is_std c2 = true -> is_std c3 = true ->
  is_std c4 = true -> valid_last c1 c2 c3 c4 = true.
Proof.
  intros H1 H2 H3 H4. unfold valid_last.
  destruct (std_char c4 H4) as (_ & -> & _).
  rewrite H1, H2, H3, H4. reflexivity.
Qed.

Lemma encode_valid_bounded n :
  forall bytes, (List.length bytes <= n)%nat ->
    Forall is_byte bytes -> valid (encode bytes) = true.
Proof.
  induction n as [n IH] using lt_wf_ind.
  intros bytes Hlen Hb.
  destruct bytes as [|x [|y [|z rest]]].
  - reflexivity.
  - inversion Hb; subst. apply valid_last_one. assumption.
  - inversion Hb as [|? ? Hx Hb1]; subst. inversion Hb1; subst.
    apply valid_last_two; assumption.
  - inversion Hb as [|? ? Hx Hb1]; subst.
    inversion Hb1 as [|? ? Hy Hb2]; subst.
    inversion Hb2 as [|? ? Hz Hb3]; subst.
    cbn [encode valid].
    pose proof (enc1_std x Hx) as S1. pose proof (enc2_std x y Hx Hy) as S2.
    pose proof (enc3_std y z Hy Hz) as S3. pose proof (enc4_std z Hz) as S4.
    destruct (encode rest) eqn:Er.
    + apply valid_last_full; assumption.
    + rewrite S1, S2, S3, S4. cbn [andb]. rewrite <- Er.
      apply (IH (List.length rest)); [cbn in Hlen; lia | lia | assumption].
Qed.

(** Every string the encoder prints is a valid base64 string, so the
    round trip is the identity on every payload that an encoder made. *)
Lemma encode_valid bytes : Forall is_byte bytes -> valid (encode bytes) = true.
Proof. apply (encode_valid_bounded (List.length bytes)). lia. Qed.

Lemma reencode_encode bytes :
  Forall is_byte bytes -> reencode (encode bytes) = encode bytes.
Proof. intros H. apply reencode_valid, encode_valid, H. Qed.

(** The decoder is forgiving, so outside the valid strings the round trip
    can change the text: padding is restored, the URL-safe characters are
    replaced, stray pad bits are cleared. *)
Example reencode_hello : reencode "aGVsbG8=" = "aGVsbG8=".
Proof. reflexivity. Qed.

Example reencode_unpadded : reencode "QQ" = "QQ==".
Proof. reflexivity. Qed.

Example reencode_url_safe : reencode "-_-_" = "+/+/".
Proof. reflexivity. Qed.

(** A character beyond U+00FF is read through the low eight bits of its
    code unit: U+0141 as [A]. *)
Example reencode_wide : reencode "QŁ==" = "QA==".
Proof. reflexivity. Qed.

Example reencode_pad_bits : reencode "QR==" = "QQ==".
Proof. reflexivity. Qed.

End Base64Facts.

(** ** The relay *)

Import JS Relay.
Local Open Scope relay_scope.

Ltac run_handler :=
  cbv [handle bind ret throw try_catch call read write unwrap when
       set_timeout agent_send agent_close].

(** Evaluates a handler on a symbolic state, using [tac] to rewrite with
    what is known of the state and of the message. *)
Ltac eval_with tac :=
  repeat first
    [ progress (run_handler; cbn [member is_str orb andb negb fst snd app
                                  String.eqb Ascii.eqb Bool.eqb])
    | progress tac ].

(** Closes a conjunction of facts about a concrete run. *)
Ltac by_run :=
  repeat match goal with |- _ /\ _ => split end; vm_compute; reflexivity.

(** *** Handlers that leave the session alone *)

Section QuietFacts.

Variable P : Call -> bool.

Lemma quiet_ret {A} (a : A) s : quiet P (ret a) s.
Proof. split; reflexivity. Qed.

Lemma quiet_throw {A} s : quiet P (@throw A) s.
Proof. split; reflexivity. Qed.

Lemma quiet_unwrap {A} (o : option A) s : quiet P (unwrap o) s.
Proof. destruct o; [apply quiet_ret | apply quiet_throw]. Qed.

Lemma quiet_call c s : P c = false -> quiet P (call c) s.
Proof. intros H. split; [reflexivity | cbn; rewrite H; reflexivity]. Qed.

Lemma quiet_bind {A B} (m : M A) (f : A -> M B) s :
  quiet P m s -> (forall a, quiet P (f a) s) -> quiet P (bind m f) s.
Proof.
  unfold quiet, bind. intros [Hs Ht] Hf.
  destruct (m s) as [[[a|] s1] t1]; cbn in *; subst s1.
  - specialize (Hf a). destruct (f a s) as [[r s2] t2]; cbn in *.
    destruct Hf as [-> Hf]. split; [reflexivity|].
    rewrite filter_app, Ht, Hf. reflexivity.
  - split; [reflexivity | assumption].
Qed.

Lemma quiet_read {B} (f : State -> M B) s :
  quiet P (f s) s -> quiet P (bind read f) s.
Proof.
  unfold quiet, bind, read. destruct (f s) as [[r s2] t2]; cbn.
  intros [-> H]. split; [reflexivity | assumption].
Qed.

Lemma quiet_try {A} (m h : M A) s :
  quiet P m s -> quiet P h s -> quiet P (try_catch m h) s.
Proof.
  unfold quiet, try_catch. intros [Hs Ht] [Hs' Ht'].
  destruct (m s) as [[[a|] s1] t1]; cbn in *; subst s1.
  - split; [reflexivity | assumption].
  - destruct (h s) as [[r s2] t2]; cbn in *. subst s2.
    split; [reflexivity|]. rewrite filter_app, Ht, Ht'. reflexivity.
Qed.

Lemma quiet_agent_send message s :
  (forall c, P (AgentSend c message) = false) ->
  quiet P (agent_send message) s.
Proof.
  intros H. unfold agent_send. apply quiet_read.
  destruct (elevenLabsWs s) as [c|]; [|apply quiet_throw].
  apply quiet_bind; [apply quiet_call, H | intros _].
  destruct (agent_state s c) as [[]|];
    first [apply quiet_throw | apply quiet_ret].
Qed.

Lemma quiet_handle (m : M unit) s :
  quiet P m s -> P Uncaught = false ->
  fst (handle m s) = s /\ filter P (snd (handle m s)) = [].
Proof.
  unfold quiet, handle. intros [Hs Ht] HU.
  destruct (m s) as [[[a|] s1] t1]; cbn in *; subst s1.
  - split; [reflexivity | assumption].
  - split; [reflexivity|]. rewrite filter_app, Ht. cbn. rewrite HU.
    reflexivity.
Qed.

End QuietFacts.

Ltac quiet_step :=
  first
    [ apply quiet_ret | apply quiet_throw | apply quiet_unwrap
    | apply quiet_call; reflexivity
    | apply quiet_read
    | apply quiet_try
    | apply quiet_bind; [ | intros ? ] ].

Ltac quiet_auto := repeat quiet_step.

Lemma quiet_case_audio message s :
  truthy (streamSid s) = false -> quiet is_ws_send (case_audio message) s.
Proof.
  intros H. unfold case_audio. apply quiet_read. rewrite H. quiet_auto.
Qed.

Lemma quiet_case_interruption s :
  truthy (streamSid s) = false -> quiet is_ws_send case_interruption s.
Proof.
  intros H. unfold case_interruption. apply quiet_read. rewrite H.
  apply quiet_ret.
Qed.

Lemma quiet_case_ping message s : quiet is_ws_send (case_ping message) s.
Proof.
  unfold case_ping. apply quiet_bind; [apply quiet_unwrap | intros pe].
  destruct (truthy _); [|apply quiet_ret].
  apply quiet_bind; [apply quiet_unwrap | intros id].
  apply quiet_agent_send. reflexivity.
Qed.

Lemma quiet_dispatch ty message s :
  truthy (streamSid s) = false -> quiet is_ws_send (dispatch ty message) s.
Proof.
  intros H. unfold dispatch.
  repeat match goal with
         | |- quiet _ (if ?b then _ else _) _ => destruct b
         end;
    first [ apply quiet_case_audio, H
          | apply quiet_case_interruption, H
          | apply quiet_case_ping
          | apply quiet_call; reflexivity ].
Qed.

Lemma quiet_on_agent_message data s :
  truthy (streamSid s) = false ->
  quiet is_ws_send (on_agent_message data) s.
Proof.
  intros H. unfold on_agent_message.
  apply quiet_try; [| quiet_auto].
  apply quiet_bind; [apply quiet_unwrap | intros message].
  apply quiet_bind; [apply quiet_unwrap | intros ty].
  apply quiet_bind; [apply quiet_unwrap | intros ev].
  apply quiet_bind; [destruct (_ || _); quiet_auto | intros _].
  apply quiet_bind; [apply quiet_dispatch, H | intros _].
  quiet_auto.
Qed.

(** *** Reading a message *)

Lemma typed_is_object message ty :
  member message "type" = Some (Str ty) ->
  exists fields, message = Obj fields /\ lookup "type" fields = Str ty.
Proof.
  destruct message; cbn; try discriminate.
  intros H. injection H as H. eauto.
Qed.

Lemma opt_member_defined v k x :
  opt_member v k = x -> x <> Undefined -> member v k = Some x.
Proof.
  unfold opt_member. destruct (member v k) as [y|]; intros H Hx.
  - rewrite H. reflexivity.
  - congruence.
Qed.

Lemma truthy_str payload :
  payload <> EmptyString -> truthy (Str payload) = true.
Proof.
  intros H. cbn.
  destruct (String.eqb_spec payload EmptyString); [congruence | reflexivity].
Qed.

(** [active_session] is the session reached when the first socket has
    opened and the start frame has been handled. *)
Lemma active_session_reached B :
  exists t,
    run B (fst connected)
      [FetchSettled (UrlAccepted "wss://agent/1"); AgentOpen 0%nat;
       WsMessage (Some start_ST1)] = Some (active_session, t).
Proof. eexists. vm_compute. reflexivity. Qed.

(** *** What a handler keeps *)

Section KeepsFacts.

Context {X : Type}.
Variable view : State -> X.
Variable P : Call -> bool.

Lemma keeps_ret {A} (a : A) : keeps view P (ret a).
Proof. intros s. split; reflexivity. Qed.

Lemma keeps_throw {A} : keeps view P (@throw A).
Proof. intros s. split; reflexivity. Qed.

Lemma keeps_unwrap {A} (o : option A) : keeps view P (unwrap o).
Proof. destruct o; [apply keeps_ret | apply keeps_throw]. Qed.

Lemma keeps_read : keeps view P read.
Proof. intros s. split; reflexivity. Qed.

Lemma keeps_call c : P c = false -> keeps view P (call c).
Proof. intros H s. split; [reflexivity | cbn; rewrite H; reflexivity]. Qed.

Lemma keeps_write f : (forall s, view (f s) = view s) -> keeps view P (write f).
Proof. intros H s. split; [apply H | reflexivity]. Qed.

Lemma keeps_bind {A B} (m : M A) (f : A -> M B) :
  keeps view P m -> (forall a, keeps view P (f a)) -> keeps view P (bind m f).
Proof.
  intros Hm Hf s. unfold bind. specialize (Hm s).
  destruct (m s) as [[[a|] s1] t1]; cbn in *.
  - specialize (Hf a s1). destruct (f a s1) as [[r s2] t2]; cbn in *.
    destruct Hm as [Hm1 Hm2]. destruct Hf as [Hf1 Hf2].
    split; [congruence|]. rewrite filter_app, Hm2, Hf2. reflexivity.
  - exact Hm.
Qed.

Lemma keeps_bind_ret {A B} (a : A) (f : A -> M B) :
  keeps view P (f a) -> keeps view P (bind (ret a) f).
Proof.
  intros Hf s. unfold bind, ret. specialize (Hf s).
  destruct (f a s) as [[r s2] t2]. exact Hf.
Qed.

Lemma keeps_try {A} (m h : M A) :
  keeps view P m -> keeps view P h -> keeps view P (try_catch m h).
Proof.
  intros Hm Hh s. unfold try_catch. specialize (Hm s).
  destruct (m s) as [[[a|] s1] t1]; cbn in *.
  - exact Hm.
  - specialize (Hh s1). destruct (h s1) as [[r s2] t2]; cbn in *.
    destruct Hm as [Hm1 Hm2]. destruct Hh as [Hh1 Hh2].
    split; [congruence|]. rewrite filter_app, Hm2, Hh2. reflexivity.
Qed.

Lemma keeps_when b (m : M unit) : keeps view P m -> keeps view P (when b m).
Proof. destruct b; [trivial | intros _; apply keeps_ret]. Qed.

Lemma keeps_handle (m : M unit) s :
  keeps view P m -> P Uncaught = false ->
  view (fst (handle m s)) = view s /\ filter P (snd (handle m s)) = [].
Proof.
  intros Hm HU. unfold handle. specialize (Hm s).
  destruct (m s) as [[[a|] s1] t1]; cbn in *.
  - exact Hm.
  - destruct Hm as [H1 H2]. split; [exact H1|].
    rewrite filter_app, H2. cbn. rewrite HU. reflexivity.
Qed.

End KeepsFacts.

Lemma length_update {A} (l : list A) i a :
  List.length (update l i a) = List.length l.
Proof.
  revert i. induction l as [|x l IH]; intros [|i]; cbn; try reflexivity.
  rewrite IH. reflexivity.
Qed.

Lemma sockets_set_agent_state c r s :
  sockets (set_agent_state c r s) = sockets s.
Proof. unfold sockets. cbn. rewrite length_update. reflexivity. Qed.

Ltac keeps_step :=
  first
    [ apply keeps_ret | apply keeps_throw | apply keeps_unwrap
    | apply keeps_read
    | apply keeps_call; reflexivity
    | apply keeps_write; intros ?; first [reflexivity | apply sockets_set_agent_state]
    | apply keeps_try
    | apply keeps_when
    | apply keeps_bind; [ | intros ? ]
    | match goal with
      | |- keeps _ _ (match ?x with _ => _ end) => destruct x
      end ].

Ltac keeps_auto := repeat keeps_step.


(** *** What the handlers keep *)

Lemma stream_setup_resume r : keeps streamSid is_ws_send (setup_resume r).
Proof. unfold setup_resume, new_websocket. keeps_auto. Qed.

Lemma stream_on_agent_open : keeps streamSid is_ws_send on_agent_open.
Proof. unfold on_agent_open, agent_send. keeps_auto. Qed.

Lemma stream_on_agent_error : keeps streamSid is_ws_send on_agent_error.
Proof. unfold on_agent_error, set_timeout. keeps_auto. Qed.

Lemma stream_fire a : keeps streamSid is_ws_send (fire a).
Proof. unfold fire, setupElevenLabs. keeps_auto. Qed.

Lemma stream_case_media B msg : keeps streamSid is_ws_send (case_media B msg).
Proof. unfold case_media, buffer_roundtrip, agent_send. keeps_auto. Qed.

Lemma stream_case_stop : keeps streamSid is_ws_send case_stop.
Proof. unfold case_stop, agent_close. keeps_auto. Qed.

Lemma stream_on_ws_close : keeps streamSid is_ws_send on_ws_close.
Proof. unfold on_ws_close, agent_close. keeps_auto. Qed.

Lemma stream_on_ws_message B data :
  is_start (WsMessage data) = false ->
  keeps streamSid is_ws_send (on_ws_message B data).
Proof.
  intros H. unfold on_ws_message.
  apply keeps_try; [|keeps_auto].
  destruct data as [msg|]; [|keeps_auto].
  cbn [unwrap]. apply keeps_bind_ret.
  cbn [is_start] in H.
  destruct (member msg "event") as [event|]; [|keeps_auto].
  cbn [unwrap]. apply keeps_bind_ret.
  rewrite H.
  apply keeps_bind; [keeps_auto | intros _].
  destruct (is_str event "media"); [apply stream_case_media|].
  destruct (is_str event "stop"); [apply stream_case_stop|].
  keeps_auto.
Qed.

Lemma on_agent_close_without_stream_id code reason s :
  truthy (streamSid s) = false ->
  streamSid (fst (handle (on_agent_close code reason) s)) = streamSid s /\
  filter is_ws_send (snd (handle (on_agent_close code reason) s)) = [].
Proof.
  intros H. unfold on_agent_close. run_handler. rewrite H, andb_false_r.
  destruct (negb (code =? 1000) && isCallActive s); split; reflexivity.
Qed.

Lemma step_before_start B s e s1 t1 :
  truthy (streamSid s) = false ->
  is_start e = false ->
  step B s e = Some (s1, t1) ->
  streamSid s1 = streamSid s /\ filter is_ws_send t1 = [].
Proof.
  intros Hs He Hstep.
  assert (K : forall m s0,
             keeps streamSid is_ws_send m ->
             Some (handle m s0) = Some (s1, t1) ->
             streamSid s0 = streamSid s ->
             streamSid s1 = streamSid s /\ filter is_ws_send t1 = []).
  { intros m s0 Hm Heq Hs0. injection Heq as Heq.
    destruct (keeps_handle streamSid is_ws_send m s0 Hm eq_refl) as [K1 K2].
    rewrite Heq in K1, K2. cbn in K1, K2. split; congruence. }
  destruct e; cbn [step] in Hstep.
  - destruct (is_closed (wsReadyState s)); [discriminate|].
    apply (K _ _ (stream_on_ws_message B data He) Hstep). reflexivity.
  - destruct (is_closed (wsReadyState s)); [discriminate|].
    apply (K on_ws_error s); [unfold on_ws_error; keeps_auto | exact Hstep
                             | reflexivity].
  - destruct (is_closed (wsReadyState s)); [discriminate|].
    apply (K _ _ stream_on_ws_close Hstep). reflexivity.
  - destruct (fetching s); [discriminate|].
    apply (K _ _ (stream_setup_resume r) Hstep). reflexivity.
  - destruct (agent_state s c) as [[]|]; try discriminate.
    apply (K _ _ stream_on_agent_open Hstep). reflexivity.
  - destruct (agent_state s c) as [[]|]; try discriminate;
      injection Hstep as Hstep;
      destruct (quiet_handle is_ws_send _ s
                  (quiet_on_agent_message data s Hs) eq_refl) as [Q1 Q2];
      rewrite Hstep in Q1, Q2; cbn in Q1, Q2; subst s1; split; trivial.
  - destruct (agent_state s c) as [[]|]; try discriminate;
      apply (K _ _ stream_on_agent_error Hstep); reflexivity.
  - destruct (agent_state s c) as [[]|]; try discriminate;
      injection Hstep as Hstep;
      destruct (on_agent_close_without_stream_id code reason
                  (set_agent_state c CLOSED s) Hs) as [Q1 Q2];
      rewrite Hstep in Q1, Q2; cbn in Q1, Q2; split; trivial.
  - destruct (nth_error (timers s) i) as [[due a]|]; [|discriminate].
    destruct (due <=? clock s); [|discriminate].
    apply (K _ _ (stream_fire a) Hstep). reflexivity.
  - destruct (0 <=? ms); [|discriminate].
    injection Hstep as <- <-. split; reflexivity.
Qed.

Lemma run_before_start B es :
  forall s s' t,
    truthy (streamSid s) = false ->
    forallb (fun e => negb (is_start e)) es = true ->
    run B s es = Some (s', t) ->
    streamSid s' = streamSid s /\ filter is_ws_send t = [].
Proof.
  induction es as [|e es IH]; intros s s' t Hs Hes Hrun; cbn in Hrun.
  - injection Hrun as <- <-. split; reflexivity.
  - cbn in Hes. apply andb_prop in Hes. destruct Hes as [He Hes].
    apply negb_true_iff in He.
    destruct (step B s e) as [[s1 t1]|] eqn:Hstep; [|discriminate].
    destruct (run B s1 es) as [[s2 t2]|] eqn:Hrest; [|discriminate].
    injection Hrun as <- <-.
    destruct (step_before_start B s e s1 t1 Hs He Hstep) as [S1 T1].
    assert (Hs1 : truthy (streamSid s1) = false) by (rewrite S1; exact Hs).
    destruct (IH s1 s2 t2 Hs1 Hes Hrest) as [S2 T2].
    split; [congruence|]. rewrite filter_app, T1, T2. reflexivity.
Qed.

(** In every run of a session, as long as no start frame has been
    handled the stream id is still [null] and nothing at all has been
    sent to the telephony leg. *)
Theorem no_ws_send_before_start B es s t :
  forallb (fun e => negb (is_start e)) es = true ->
  run B (fst connected) es = Some (s, t) ->
  streamSid s = Null /\ filter is_ws_send t = [].
Proof.
  intros Hes Hrun.
  apply (run_before_start B es (fst connected) s t eq_refl Hes Hrun).
Qed.

(** *** The handle is the last socket created *)

Lemma sockets_on_agent_open : keeps sockets nothing on_agent_open.
Proof. unfold on_agent_open, agent_send. keeps_auto. Qed.

Lemma sockets_on_agent_message data : keeps sockets nothing (on_agent_message data).
Proof.
  unfold on_agent_message, dispatch, case_audio, case_interruption, case_ping,
    agent_send.
  keeps_auto.
Qed.

Lemma sockets_on_agent_error : keeps sockets nothing on_agent_error.
Proof. unfold on_agent_error, set_timeout. keeps_auto. Qed.

Lemma sockets_on_agent_close code reason :
  keeps sockets nothing (on_agent_close code reason).
Proof. unfold on_agent_close, set_timeout. keeps_auto. Qed.

Lemma sockets_fire a : keeps sockets nothing (fire a).
Proof. unfold fire, setupElevenLabs. keeps_auto. Qed.

Lemma sockets_on_ws_message B data : keeps sockets nothing (on_ws_message B data).
Proof.
  unfold on_ws_message, case_start, case_media, case_stop, buffer_roundtrip,
    agent_send, agent_close.
  keeps_auto.
Qed.

Lemma sockets_on_ws_close : keeps sockets nothing on_ws_close.
Proof. unfold on_ws_close, agent_close. keeps_auto. Qed.

Lemma holds_latest_sockets s s' :
  sockets s' = sockets s -> holds_latest s -> holds_latest s'.
Proof.
  unfold holds_latest, latest, sockets. intros H. injection H as -> ->.
  trivial.
Qed.

Lemma holds_latest_setup_resume r s :
  holds_latest s -> holds_latest (fst (handle (setup_resume r) s)).
Proof.
  intros H. destruct r; try exact H.
  unfold holds_latest, latest. cbn. rewrite length_app. cbn.
  rewrite Nat.add_1_r. reflexivity.
Qed.

Lemma step_holds_latest B s e s1 t1 :
  holds_latest s -> step B s e = Some (s1, t1) -> holds_latest s1.
Proof.
  intros Hs Hstep.
  assert (K : forall m s0,
             keeps sockets nothing m ->
             Some (handle m s0) = Some (s1, t1) ->
             sockets s0 = sockets s -> holds_latest s1).
  { intros m s0 Hm Heq Hs0. injection Heq as Heq.
    destruct (keeps_handle sockets nothing m s0 Hm eq_refl) as [K1 _].
    rewrite Heq in K1. cbn in K1.
    apply (holds_latest_sockets s); [congruence | exact Hs]. }
  destruct e; cbn [step] in Hstep.
  - destruct (is_closed (wsReadyState s)); [discriminate|].
    apply (K _ _ (sockets_on_ws_message B data) Hstep). reflexivity.
  - destruct (is_closed (wsReadyState s)); [discriminate|].
    apply (K on_ws_error s); [unfold on_ws_error; keeps_auto | exact Hstep
                             | reflexivity].
  - destruct (is_closed (wsReadyState s)); [discriminate|].
    apply (K _ _ sockets_on_ws_close Hstep). reflexivity.
  - destruct (fetching s) as [|n]; [discriminate|].
    injection Hstep as Hstep.
    pose proof (holds_latest_setup_resume r (set_fetching n s) Hs) as H.
    rewrite Hstep in H. exact H.
  - destruct (agent_state s c) as [[]|]; try discriminate.
    apply (K _ _ sockets_on_agent_open Hstep). apply sockets_set_agent_state.
  - destruct (agent_state s c) as [[]|]; try discriminate;
      apply (K _ _ (sockets_on_agent_message data) Hstep); reflexivity.
  - destruct (agent_state s c) as [[]|]; try discriminate;
      apply (K _ _ sockets_on_agent_error Hstep); reflexivity.
  - destruct (agent_state s c) as [[]|]; try discriminate;
      apply (K _ _ (sockets_on_agent_close code reason) Hstep);
      apply sockets_set_agent_state.
  - destruct (nth_error (timers s) i) as [[due a]|]; [|discriminate].
    destruct (due <=? clock s); [|discriminate].
    apply (K _ _ (sockets_fire a) Hstep). reflexivity.
  - destruct (0 <=? ms); [|discriminate].
    injection Hstep as <- <-. exact Hs.
Qed.

Lemma run_holds_latest B es :
  forall s s' t, holds_latest s -> run B s es = Some (s', t) -> holds_latest s'.
Proof.
  induction es as [|e es IH]; intros s s' t Hs Hrun; cbn in Hrun.
  - injection Hrun as <- <-. exact Hs.
  - destruct (step B s e) as [[s1 t1]|] eqn:Hstep; [|discriminate].
    destruct (run B s1 es) as [[s2 t2]|] eqn:Hrest; [|discriminate].
    injection Hrun as <- <-.
    apply (IH s1 s2 t2); [|exact Hrest].
    apply (step_holds_latest B s e s1 t1 Hs Hstep).
Qed.

(** In every run, as soon as an agent socket exists the session holds
    one: the last created. *)
Theorem session_holds_latest_socket B es s t c r :
  run B (fst connected) es = Some (s, t) ->
  agent_state s c = Some r ->
  exists c', elevenLabsWs s = Some c' /\ S c' = List.length (agents s).
Proof.
  intros Hrun Hc.
  pose proof (run_holds_latest B es (fst connected) s t eq_refl Hrun) as H.
  unfold holds_latest, latest in H. unfold agent_state in Hc.
  destruct (agents s) as [|a l]; [destruct c; discriminate|].
  cbn in H. eauto.
Qed.

(** The open handler leaves the session as it is and makes one send, of
    the initial configuration, on the socket the session holds, whether
    or not that send then throws. *)
Lemma on_agent_open_send (s : State) (c : conn) :
  elevenLabsWs s = Some c ->
  fst (handle on_agent_open s) = s /\
  filter is_agent_send (snd (handle on_agent_open s)) =
    [AgentSend c (initialConfig s)].
Proof.
  intros Hc. unfold on_agent_open.
  destruct (agent_state s c) as [[]|] eqn:Hst;
    eval_with ltac:(rewrite ?Hc, ?Hst); split; reflexivity.
Qed.

(** *** The claims *)

(** C1.  The claim: once the session is inactive no reconnection of the
    agent leg is performed, and a reconnection timer that fires after the
    session became inactive does nothing.  The program on the contrary:
    the timer callback is [setupElevenLabs] itself, which never reads
    [isCallActive].  In this run the agent socket fails during an active
    call: its error event sets the 3000 ms timer, its close event (code
    1006) ends the call, marks the session inactive and logs that it will
    not reconnect.  The telephony socket is closed after the grace delay.
    The timer then fires: it fetches a new endpoint and opens a second
    agent socket for the inactive session, which nothing will close. *)
Theorem stale_reconnect_timer_runs_setup :
  exists s t s' t',
    run refuse (fst connected)
      [FetchSettled (UrlAccepted "wss://agent/1"); AgentOpen 0%nat;
       WsMessage (Some start_ST1);
       AgentError 0%nat; AgentClosed 0%nat 1006 EmptyString] = Some (s, t) /\
    isCallActive s = false /\
    timers s = [(3000, RunSetup); (2000, CloseTelephony)] /\
    run refuse s
      [Elapse 2000; TimerFired 1%nat; WsClosed; Elapse 1000;
       TimerFired 0%nat; FetchSettled (UrlAccepted "wss://agent/2");
       AgentOpen 1%nat] = Some (s', t') /\
    filter is_reconnect t' = [Fetch; NewWebSocket 1%nat "wss://agent/2"] /\
    isCallActive s' = false /\
    wsReadyState s' = CLOSED /\
    elevenLabsWs s' = Some 1%nat /\
    agents s' = [CLOSED; OPEN] /\
    timers s' = [].
Proof. do 4 eexists. by_run. Qed.

(** The same when the call is stopped by the telephony leg between the
    error event and the timer. *)
Lemma stale_timer_after_stop_runs_setup :
  exists s t s1 s2,
    run refuse (fst connected)
      [FetchSettled (UrlAccepted "wss://agent/1"); AgentOpen 0%nat;
       WsMessage (Some start_ST1); AgentError 0%nat;
       WsMessage (Some stop_event); Elapse 3000] = Some (s, t) /\
    isCallActive s = false /\
    timers s = [(3000, RunSetup)] /\
    step refuse s (TimerFired 0%nat) = Some (s1, [Fetch]) /\
    step refuse s1 (FetchSettled (UrlAccepted "wss://agent/2")) =
      Some (s2, [NewWebSocket 1%nat "wss://agent/2"]) /\
    isCallActive s2 = false /\
    elevenLabsWs s2 = Some 1%nat /\
    agents s2 = [CLOSING; CONNECTING].
Proof. do 4 eexists. by_run. Qed.

(** And with a timer set by the close handler: the start frame
    carries no stream id, so an abnormal close finds the session active,
    skips the teardown and schedules the reconnection; the call stops
    before the timer fires, and the timer still runs the setup. *)
Lemma stale_close_timer_runs_setup :
  exists s t s1,
    run refuse (fst connected)
      [FetchSettled (UrlAccepted "wss://agent/1"); AgentOpen 0%nat;
       WsMessage (Some start_without_stream_id);
       AgentClosed 0%nat 1006 EmptyString; WsMessage (Some stop_event);
       Elapse 3000] = Some (s, t) /\
    filter (is_set_timeout RunSetup) t = [SetTimeout RunSetup 3000] /\
    isCallActive s = false /\
    step refuse s (TimerFired 0%nat) = Some (s1, [Fetch]).
Proof. do 3 eexists. by_run. Qed.

(** Whatever the session, a reconnection timer that fires starts a
    setup. *)
Lemma fire_setup_ignores_active_flag (s : State) :
  handle (fire RunSetup) s = (set_fetching (S (fetching s)) s, [Fetch]).
Proof. reflexivity. Qed.

(** C2.  While the stream id is unset (falsy), handling an agent message
    of any kind, audio and interruption included, sends no frame at all
    toward the telephony leg and leaves the session as it was: the frame
    is dropped, nothing is queued. *)
Theorem no_telephony_frame_without_stream_id
    (s : State) (data : option value) :
  truthy (streamSid s) = false ->
  fst (handle (on_agent_message data) s) = s /\
  filter is_ws_send (snd (handle (on_agent_message data) s)) = [].
Proof.
  intros H.
  apply quiet_handle; [apply quiet_on_agent_message, H | reflexivity].
Qed.

Lemma no_telephony_frame_without_stream_id_witness :
  truthy (streamSid fresh) = false /\
  fst (handle (on_agent_message (Some (audio_chunk (Str "AAAA")))) fresh)
    = fresh /\
  filter is_ws_send
    (snd (handle (on_agent_message (Some (audio_chunk (Str "AAAA")))) fresh))
    = [].
Proof.
  split; [reflexivity|].
  apply (no_telephony_frame_without_stream_id fresh). reflexivity.
Defined.

(** C3, as stated, fails: the call is active, the endpoint fetch fails,
    and the setup only logs the error twice.  No timer is set, no fetch
    is pending and no socket exists afterwards, so nothing will retry. *)
Lemma fetch_failure_is_abandoned :
  exists s t,
    run refuse (fst connected) [WsMessage (Some start_ST1)] = Some (s, t) /\
    isCallActive s = true /\
    step refuse s (FetchSettled FetchFailed) =
      Some (set_fetching 0 s,
            [LogError "Error getting signed URL:";
             LogError "[ElevenLabs] Setup error:"]) /\
    timers (set_fetching 0 s) = [] /\
    agents (set_fetching 0 s) = [] /\
    elevenLabsWs (set_fetching 0 s) = None.
Proof. do 2 eexists. by_run. Qed.

(** C3, amended.  A failed endpoint fetch, or a socket constructor that
    throws, is logged and abandoned: the session is unchanged and no retry
    is scheduled.  A failure reported by the error event of an agent socket
    schedules one setup 3000 ms later, whatever the active flag, and the
    fired timer runs the setup again from the endpoint fetch. *)
Theorem setup_failure_policy (s : State) :
  handle (setup_resume FetchFailed) s =
    (s, [LogError "Error getting signed URL:";
         LogError "[ElevenLabs] Setup error:"]) /\
  handle (setup_resume UrlRejected) s =
    (s, [LogError "[ElevenLabs] Setup error:"]) /\
  handle on_agent_error s =
    (set_timers (timers s ++ [(clock s + 3000, RunSetup)]) s,
     [LogError "[ElevenLabs] WebSocket error details:";
      SetTimeout RunSetup 3000]) /\
  handle (fire RunSetup) s = (set_fetching (S (fetching s)) s, [Fetch]).
Proof. repeat split; reflexivity. Qed.

(** An error event followed by a close event on an agent socket leaves
    exactly one more pending reconnection timer, the one of the error
    handler, except when the session is active with no stream id and the
    close is abnormal: then the close handler sets a second one.  Every
    fired timer starts a setup, and a successful setup creates a fresh
    socket and replaces the handle with it. *)
Lemma error_then_close_timers (s : State) (code : Z) (reason : string) :
  pending_setups
    (fst (handle (on_agent_close code reason) (fst (handle on_agent_error s))))
    = (if isCallActive s && negb (truthy (streamSid s)) && negb (code =? 1000)
       then S (S (pending_setups s))
       else S (pending_setups s)) /\
  snd (handle (fire RunSetup) s) = [Fetch] /\
  forall url,
    elevenLabsWs (fst (handle (setup_resume (UrlAccepted url)) s)) =
      Some (List.length (agents s)) /\
    agents (fst (handle (setup_resume (UrlAccepted url)) s)) =
      agents s ++ [CONNECTING].
Proof.
  split; [|split; [reflexivity | intros url; split; reflexivity]].
  unfold on_agent_error, on_agent_close.
  destruct (isCallActive s) eqn:Ha, (truthy (streamSid s)) eqn:Hs;
    eval_with ltac:(cbn [isCallActive streamSid set_timers set_isCallActive];
                    rewrite ?Ha, ?Hs);
    destruct (code =? 1000); cbn;
    unfold pending_setups; cbn; rewrite ?filter_app, ?length_app; cbn; lia.
Qed.

(** C5.  When the agent socket closes with code 1000 while the session is
    active, the close handler sets no reconnection timer.  If moreover the
    stream id is known, it sends exactly one frame to the telephony leg,
    the [stop] frame for that stream, marks the session inactive and sets
    one timer, due 2000 ms later, whose callback closes the telephony
    socket when that socket is still open and does nothing otherwise. *)
Theorem normal_close_ends_call (s : State) (reason : string) :
  isCallActive s = true ->
  filter (is_set_timeout RunSetup)
    (snd (handle (on_agent_close 1000 reason) s)) = [] /\
  pending_setups (fst (handle (on_agent_close 1000 reason) s))
    = pending_setups s /\
  (truthy (streamSid s) = true ->
   filter is_ws_send (snd (handle (on_agent_close 1000 reason) s)) =
     [WsSend (Obj [("event", Str "stop"); ("streamSid", streamSid s)])] /\
   isCallActive (fst (handle (on_agent_close 1000 reason) s)) = false /\
   filter (is_set_timeout CloseTelephony)
     (snd (handle (on_agent_close 1000 reason) s)) =
     [SetTimeout CloseTelephony 2000] /\
   timers (fst (handle (on_agent_close 1000 reason) s)) =
     timers s ++ [(clock s + 2000, CloseTelephony)]) /\
  (forall s2,
     handle (fire CloseTelephony) s2 =
       if is_open (wsReadyState s2)
       then (set_wsReadyState CLOSING s2, [WsClose])
       else (s2, [])).
Proof.
  intros Ha. unfold on_agent_close. run_handler. rewrite Ha.
  destruct (truthy (streamSid s)) eqn:Hs; cbn.
  - unfold pending_setups; cbn. rewrite filter_app, length_app. cbn.
    repeat split; try reflexivity; try lia.
    intros s2. destruct (wsReadyState s2); reflexivity.
  - rewrite Ha. cbn. repeat split; try reflexivity; try discriminate.
    intros s2. destruct (wsReadyState s2); reflexivity.
Qed.

Lemma normal_close_ends_call_witness :
  isCallActive active_session = true /\
  truthy (streamSid active_session) = true /\
  handle (on_agent_close 1000 EmptyString) active_session =
    (set_timers [(2000, CloseTelephony)]
       (set_isCallActive false active_session),
     [Log "[ElevenLabs] Disconnected with code";
      Log "[Twilio] Ending call because ElevenLabs disconnected";
      WsSend (Obj [("event", Str "stop"); ("streamSid", Str "ST1")]);
      SetTimeout CloseTelephony 2000;
      Log "[ElevenLabs] Not reconnecting as call is no longer active"]) /\
  filter (is_set_timeout RunSetup)
    (snd (handle (on_agent_close 1000 EmptyString) active_session)) = [].
Proof.
  split; [reflexivity|]. split; [reflexivity|]. split; [reflexivity|].
  apply (normal_close_ends_call active_session EmptyString). reflexivity.
Defined.

(** C6.  For a well-formed agent audio message, in either of its two
    shapes, and a session whose stream id is set, the handler sends
    exactly one frame to the telephony leg: a [media] frame whose
    [streamSid] is the stream id of the session and whose [media.payload]
    is the payload received, unchanged. *)
Theorem audio_payload_forwarded
    (s : State) (message : value) (payload : string) :
  truthy (streamSid s) = true ->
  well_formed_audio message payload ->
  fst (handle (on_agent_message (Some message)) s) = s /\
  filter is_ws_send (snd (handle (on_agent_message (Some message)) s)) =
    [WsSend (Obj [("event", Str "media"); ("streamSid", streamSid s);
                  ("media", Obj [("payload", Str payload)])])].
Proof.
  intros Hs (Hty & Hne & Hshape).
  destruct (typed_is_object _ _ Hty) as (fields & -> & Hl).
  pose proof (truthy_str payload Hne) as Ht.
  cbn [member opt_member] in Hshape.
  unfold on_agent_message, dispatch, case_audio.
  destruct Hshape as [H1 | [H0 H2]].
  - assert (Hm : member (lookup "audio" fields) "chunk" = Some (Str payload))
      by (apply opt_member_defined; [exact H1 | discriminate]).
    destruct (truthy (lookup "error_event" fields)) eqn:He;
      eval_with ltac:(rewrite ?Hl, ?He, ?Hs, ?H1, ?Hm, ?Ht);
      split; reflexivity.
  - assert (Hm : member (lookup "audio_event" fields) "audio_base_64"
                 = Some (Str payload))
      by (apply opt_member_defined; [exact H2 | discriminate]).
    destruct (truthy (lookup "error_event" fields)) eqn:He;
      eval_with ltac:(rewrite ?Hl, ?He, ?Hs, ?H0, ?H2, ?Hm, ?Ht);
      split; reflexivity.
Qed.

Lemma audio_payload_forwarded_witness :
  truthy (streamSid active_session) = true /\
  well_formed_audio (audio_chunk (Str "aGVsbG8=")) "aGVsbG8=" /\
  well_formed_audio (audio_event (Str "d29ybGQ=")) "d29ybGQ=" /\
  filter is_ws_send
    (snd (handle (on_agent_message (Some (audio_chunk (Str "aGVsbG8="))))
            active_session)) =
    [WsSend (Obj [("event", Str "media"); ("streamSid", Str "ST1");
                  ("media", Obj [("payload", Str "aGVsbG8=")])])] /\
  filter is_ws_send
    (snd (handle (on_agent_message (Some (audio_event (Str "d29ybGQ="))))
            active_session)) =
    [WsSend (Obj [("event", Str "media"); ("streamSid", Str "ST1");
                  ("media", Obj [("payload", Str "d29ybGQ=")])])].
Proof.
  assert (W1 : well_formed_audio (audio_chunk (Str "aGVsbG8=")) "aGVsbG8=").
  { split; [reflexivity|]. split; [discriminate|]. left. reflexivity. }
  assert (W2 : well_formed_audio (audio_event (Str "d29ybGQ=")) "d29ybGQ=").
  { split; [reflexivity|]. split; [discriminate|]. right.
    split; reflexivity. }
  split; [reflexivity|]. split; [exact W1|]. split; [exact W2|]. split.
  - apply (audio_payload_forwarded active_session _ _ eq_refl W1).
  - apply (audio_payload_forwarded active_session _ _ eq_refl W2).
Defined.

(** C7, as stated, fails: a ping whose event identifier is the number 0
    is answered by no pong.  The session has an open agent socket; the
    handler only logs. *)
Lemma ping_zero_id_gets_no_pong :
  exists s t,
    run refuse (fst connected)
      [FetchSettled (UrlAccepted "wss://agent/1"); AgentOpen 0%nat]
      = Some (s, t) /\
    elevenLabsWs s = Some 0%nat /\
    agent_state s 0%nat = Some OPEN /\
    member (opt_member (ping (Num 0)) "ping_event") "event_id"
      = Some (Num 0) /\
    step refuse s (AgentMessage 0%nat (Some (ping (Num 0)))) =
      Some (s, [Log "[ElevenLabs] Raw message:";
                Log "[ElevenLabs] Message received type:"]).
Proof. do 2 eexists. by_run. Qed.

(** C7, amended.  For every agent ping whose event identifier is truthy
    (not [0], not the empty string, not [null] or [false]), the handler
    makes exactly one send on the agent socket the session holds: a
    [pong] whose [event_id] is the identifier of the ping. *)
Theorem ping_gets_one_pong (s : State) (c : conn) (message id : value) :
  elevenLabsWs s = Some c ->
  member message "type" = Some (Str "ping") ->
  opt_member (opt_member message "ping_event") "event_id" = id ->
  truthy id = true ->
  fst (handle (on_agent_message (Some message)) s) = s /\
  filter is_agent_send (snd (handle (on_agent_message (Some message)) s)) =
    [AgentSend c (Obj [("type", Str "pong"); ("event_id", id)])].
Proof.
  intros Hc Hty Hid Ht.
  destruct (typed_is_object _ _ Hty) as (fields & -> & Hl).
  cbn [member opt_member] in Hid.
  assert (Hm : member (lookup "ping_event" fields) "event_id" = Some id).
  { apply opt_member_defined; [exact Hid | intros ->; discriminate]. }
  unfold on_agent_message, dispatch, case_ping.
  destruct (truthy (lookup "error_event" fields)) eqn:He;
    destruct (agent_state s c) as [[]|] eqn:Hst;
    eval_with ltac:(rewrite ?Hl, ?He, ?Hid, ?Hm, ?Ht, ?Hc, ?Hst);
    split; reflexivity.
Qed.

Lemma ping_gets_one_pong_witness :
  elevenLabsWs active_session = Some 0%nat /\
  truthy (Str "abc") = true /\
  filter is_agent_send
    (snd (handle (on_agent_message (Some (ping (Str "abc")))) active_session))
    = [AgentSend 0%nat (Obj [("type", Str "pong"); ("event_id", Str "abc")])].
Proof.
  split; [reflexivity|]. split; [reflexivity|].
  apply (ping_gets_one_pong active_session 0%nat (ping (Str "abc")) (Str "abc"));
    reflexivity.
Defined.

(** C8.  On open the handler makes exactly one send on the agent socket.
    The message has two fields, its type and [dynamic_variables]: no
    prompt and no greeting.  The variables are [client_id],
    [phone_number], [name], [organization] and [credit_amount]; each is
    the custom parameter of that name when it is there (truthy), else the
    default: ["unknown_number"], ["Cliente"], ["Datágora"], ["50000"], and
    for [client_id] the call id or else ["unknown_call"].  In the scenario
    of a start frame with stream ["ST1"], call ["CA1"] and parameters
    [{name: "Ana"}], the message carries [name = "Ana"] and
    [organization = "Datágora"]. *)
Theorem initial_config_carries_variables_only (s : State) (c : conn) :
  elevenLabsWs s = Some c ->
  (exists vars,
     fst (handle on_agent_open s) = s /\
     filter is_agent_send (snd (handle on_agent_open s)) =
       [AgentSend c (Obj [("type", Str "conversation_initiation_client_data");
                          ("dynamic_variables", Obj vars)])] /\
     map fst vars =
       ["client_id"; "phone_number"; "name"; "organization"; "credit_amount"] /\
     (forall k d,
        In (k, d) [("phone_number", "unknown_number"); ("name", "Cliente");
                   ("organization", "Datágora"); ("credit_amount", "50000")] ->
        lookup k vars =
          if truthy (opt_member (customParameters s) k)
          then opt_member (customParameters s) k
          else Str d) /\
     lookup "client_id" vars =
       (if truthy (opt_member (customParameters s) "client_id")
        then opt_member (customParameters s) "client_id"
        else if truthy (callSid s) then callSid s
        else Str "unknown_call")) /\
  (forall B, exists s1 t1,
     run B (fst connected)
       [FetchSettled (UrlAccepted "wss://agent/1");
        WsMessage (Some start_ST1); AgentOpen 0%nat] = Some (s1, t1) /\
     filter is_agent_send t1 =
       [AgentSend 0%nat
          (Obj [("type", Str "conversation_initiation_client_data");
                ("dynamic_variables",
                 Obj [("client_id", Str "CA1");
                      ("phone_number", Str "unknown_number");
                      ("name", Str "Ana");
                      ("organization", Str "Datágora");
                      ("credit_amount", Str "50000")])])]).
Proof.
  intros Hc. split.
  - destruct (on_agent_open_send s c Hc) as [Hs Hsend].
    eexists. split; [exact Hs|].
    split; [rewrite Hsend; unfold initialConfig, dynamic_variables;
            reflexivity|].
    split; [reflexivity|].
    split.
    + intros k d Hin. cbn in Hin.
      destruct Hin as [H | [H | [H | [H | []]]]]; injection H as <- <-;
        reflexivity.
    + cbn. unfold or.
      destruct (truthy (opt_member (customParameters s) "client_id")) eqn:E.
      * rewrite E. reflexivity.
      * reflexivity.
  - intros B. do 2 eexists. by_run.
Qed.

Lemma initial_config_carries_variables_only_witness :
  elevenLabsWs active_session = Some 0%nat /\
  exists vars,
    filter is_agent_send (snd (handle on_agent_open active_session)) =
      [AgentSend 0%nat
         (Obj [("type", Str "conversation_initiation_client_data");
               ("dynamic_variables", Obj vars)])] /\
    lookup "name" vars = Str "Ana" /\
    lookup "organization" vars = Str "Datágora".
Proof.
  split; [reflexivity|].
  destruct (initial_config_carries_variables_only active_session 0%nat eq_refl)
    as [(vars & _ & Hsend & _ & Hvars & _) _].
  exists vars. split; [exact Hsend|]. split.
  - apply (Hvars "name" "Cliente"). cbn. tauto.
  - apply (Hvars "organization" "Datágora"). cbn. tauto.
Defined.

(** A media frame that arrives while the agent socket is not open is
    dropped in silence: no call at all, the session unchanged. *)
Lemma media_dropped_when_agent_not_open B (s : State) (msg : value) :
  member msg "event" = Some (Str "media") ->
  agent_is_open s = false ->
  handle (on_ws_message B (Some msg)) s = (s, []).
Proof.
  intros Hev Hopen.
  destruct msg; cbn in Hev; try discriminate. injection Hev as Hev.
  unfold on_ws_message, case_media.
  eval_with ltac:(rewrite ?Hev, ?Hopen). reflexivity.
Qed.

(** C9.  For a telephony media frame whose payload is a valid base64
    string, decoding and encoding again gives the payload back; when the
    agent socket is open the handler sends on it one message, whose single
    field [user_audio_chunk] is the payload as received; when the agent
    socket is not open the frame is dropped in silence. *)
Theorem media_payload_round_trip
    B (s : State) (msg : value) (payload : string) :
  member msg "event" = Some (Str "media") ->
  opt_member (opt_member msg "media") "payload" = Str payload ->
  Base64.valid payload = true ->
  Base64.encode (Base64.decode payload) = payload /\
  (forall c, elevenLabsWs s = Some c -> agent_state s c = Some OPEN ->
     handle (on_ws_message B (Some msg)) s =
       (s, [Stdout ".";
            AgentSend c (Obj [("user_audio_chunk", Str payload)])])) /\
  (agent_is_open s = false ->
     handle (on_ws_message B (Some msg)) s = (s, [])).
Proof.
  intros Hev Hp Hv.
  pose proof (Base64Facts.reencode_valid payload Hv) as Hr.
  split; [exact Hr|]. split.
  - intros c Hc Hst.
    assert (Hopen : agent_is_open s = true)
      by (unfold agent_is_open; rewrite Hc, Hst; reflexivity).
    destruct msg; cbn in Hev; try discriminate. injection Hev as Hev.
    cbn [member opt_member] in Hp.
    assert (Hm : member (lookup "media" fields) "payload" = Some (Str payload))
      by (apply opt_member_defined; [exact Hp | discriminate]).
    unfold on_ws_message, case_media, buffer_roundtrip, audioMessage.
    eval_with ltac:(rewrite ?Hev, ?Hopen, ?Hm, ?Hr, ?Hc, ?Hst).
    reflexivity.
  - apply media_dropped_when_agent_not_open. exact Hev.
Qed.

Lemma media_payload_round_trip_witness :
  member (media_event (Str "aGVsbG8=")) "event" = Some (Str "media") /\
  Base64.valid "aGVsbG8=" = true /\
  handle (on_ws_message refuse (Some (media_event (Str "aGVsbG8="))))
    active_session =
    (active_session,
     [Stdout "."; AgentSend 0%nat (Obj [("user_audio_chunk", Str "aGVsbG8=")])]).
Proof.
  split; [reflexivity|]. split; [reflexivity|].
  apply (media_payload_round_trip refuse active_session
           (media_event (Str "aGVsbG8=")) "aGVsbG8=");
    reflexivity.
Defined.

(** C10.  An agent ping without [ping_event.event_id] is answered by
    nothing: the handler makes no send and no close on the agent socket
    and leaves the session, the socket states included, as it was.  So a
    pong is sent only for a ping that has the identifier. *)
Theorem ping_without_id_is_ignored (s : State) (message : value) :
  member message "type" = Some (Str "ping") ->
  opt_member (opt_member message "ping_event") "event_id" = Undefined ->
  fst (handle (on_agent_message (Some message)) s) = s /\
  filter is_agent_call (snd (handle (on_agent_message (Some message)) s)) = [].
Proof.
  intros Hty Hid.
  destruct (typed_is_object _ _ Hty) as (fields & -> & Hl).
  cbn [member opt_member] in Hid.
  unfold on_agent_message, dispatch, case_ping.
  destruct (truthy (lookup "error_event" fields)) eqn:He;
    eval_with ltac:(rewrite ?Hl, ?He, ?Hid);
    split; reflexivity.
Qed.

Lemma ping_without_id_is_ignored_witness :
  member (Obj [("type", Str "ping"); ("ping_event", Obj [])]) "type"
    = Some (Str "ping") /\
  handle (on_agent_message
            (Some (Obj [("type", Str "ping"); ("ping_event", Obj [])])))
    active_session =
    (active_session,
     [Log "[ElevenLabs] Raw message:";
      Log "[ElevenLabs] Message received type:"]) /\
  filter is_agent_call
    (snd (handle (on_agent_message
                    (Some (Obj [("type", Str "ping"); ("ping_event", Obj [])])))
            active_session)) = [].
Proof.
  split; [reflexivity|]. split; [reflexivity|].
  apply (ping_without_id_is_ignored active_session
           (Obj [("type", Str "ping"); ("ping_event", Obj [])]));
    reflexivity.
Defined.

(** * Further properties *)

(** ** Base64, both ways *)

Module Base64RoundTrip.
Import Base64 Base64Facts Printed.

(** The decoder reads back the value the encoder printed. *)
Lemma sextet_of_b64char n : 0 <= n < 64 -> sextet_of (b64char n) = n.
Proof.
  intros H. apply Z.eqb_eq. revert n H.
  assert (F : forallb (fun n => sextet_of (b64char n) =? n) range64 = true)
    by (vm_compute; reflexivity).
  intros n H. rewrite forallb_forall in F. apply F, in_range64, H.
Qed.

Lemma b64char_std n : 0 <= n < 64 -> is_std (b64char n) = true.
Proof.
  assert (F : forallb (fun n => is_std (b64char n)) range64 = true)
    by (vm_compute; reflexivity).
  intros H. rewrite forallb_forall in F. apply F, in_range64, H.
Qed.

Lemma unbase64_range c v : unbase64 c = Some v -> 0 <= v < 64.
Proof.
  destruct c as [b0 b1 b2 b3 b4 b5 b6 b7].
  destruct b0, b1, b2, b3, b4, b5, b6, b7; vm_compute;
    intros H; first [ discriminate H | injection H as <-; split; congruence ].
Qed.

Lemma sextets_range s : Forall (fun v => 0 <= v < 64) (sextets s).
Proof.
  induction s as [|c s IH]; cbn [sextets]; [constructor|].
  destruct (Ascii.eqb c pad); [constructor|].
  destruct (unbase64 c) as [v|] eqn:E; [|exact IH].
  constructor; [exact (unbase64_range c v E) | exact IH].
Qed.

Lemma byte1_is_byte a b : 0 <= a < 64 -> 0 <= b < 64 -> is_byte (byte1 a b).
Proof.
  intros Ha Hb.
  assert (H : ((0 <=? byte1 a b) && (byte1 a b <? 256)) = true).
  { revert a b Ha Hb.
    apply (forall2_range64
             (fun a b => (0 <=? byte1 a b) && (byte1 a b <? 256))).
    vm_compute. reflexivity. }
  apply andb_prop in H. unfold is_byte. lia.
Qed.

Lemma byte2_is_byte a b : 0 <= a < 64 -> 0 <= b < 64 -> is_byte (byte2 a b).
Proof.
  intros Ha Hb.
  assert (H : ((0 <=? byte2 a b) && (byte2 a b <? 256)) = true).
  { revert a b Ha Hb.
    apply (forall2_range64
             (fun a b => (0 <=? byte2 a b) && (byte2 a b <? 256))).
    vm_compute. reflexivity. }
  apply andb_prop in H. unfold is_byte. lia.
Qed.

Lemma byte3_is_byte a b : 0 <= a < 64 -> 0 <= b < 64 -> is_byte (byte3 a b).
Proof.
  intros Ha Hb.
  assert (H : ((0 <=? byte3 a b) && (byte3 a b <? 256)) = true).
  { revert a b Ha Hb.
    apply (forall2_range64
             (fun a b => (0 <=? byte3 a b) && (byte3 a b <? 256))).
    vm_compute. reflexivity. }
  apply andb_prop in H. unfold is_byte. lia.
Qed.

Lemma unpack_bytes_bounded n :
  forall l, (List.length l <= n)%nat ->
    Forall (fun v => 0 <= v < 64) l -> Forall is_byte (unpack l).
Proof.
  induction n as [n IH] using lt_wf_ind.
  intros l Hlen Hl.
  destruct l as [|a [|b [|c [|d rest]]]]; cbn [unpack]; try constructor.
  - inversion Hl as [|? ? Ha Hl1]; subst. inversion Hl1; subst.
    apply byte1_is_byte; assumption.
  - constructor.
  - inversion Hl as [|? ? Ha Hl1]; subst. inversion Hl1; subst.
    apply byte1_is_byte; assumption.
  - constructor; [|constructor].
    inversion Hl as [|? ? Ha Hl1]; subst.
    inversion Hl1 as [|? ? Hb Hl2]; subst. inversion Hl2; subst.
    apply byte2_is_byte; assumption.
  - inversion Hl as [|? ? Ha Hl1]; subst. inversion Hl1; subst.
    apply byte1_is_byte; assumption.
  - inversion Hl as [|? ? Ha Hl1]; subst.
    inversion Hl1 as [|? ? Hb Hl2]; subst.
    inversion Hl2 as [|? ? Hc Hl3]; subst.
    inversion Hl3 as [|? ? Hd Hl4]; subst.
    constructor; [apply byte2_is_byte; assumption|].
    constructor; [apply byte3_is_byte; assumption|].
    apply (IH (List.length rest)); [cbn in Hlen; lia | lia | assumption].
Qed.

(** Whatever the text, the decoder yields bytes. *)
Lemma decode_bytes s : Forall is_byte (decode s).
Proof.
  unfold decode.
  apply (unpack_bytes_bounded (List.length (sextets (narrow s)))); [lia|].
  apply sextets_range.
Qed.

Ltac by_bytes1 P :=
  let x := fresh in let H := fresh in
  intros x H; apply (forall1_range256 P); [vm_compute; reflexivity | exact H].

Ltac by_bytes2 P :=
  let x := fresh in let y := fresh in let Hx := fresh in let Hy := fresh in
  intros x y Hx Hy;
  apply (forall2_range256 P); [vm_compute; reflexivity | exact Hx | exact Hy].

Lemma s1_range : forall x, is_byte x -> (0 <=? s1 x) && (s1 x <? 64) = true.
Proof. by_bytes1 (fun x => (0 <=? s1 x) && (s1 x <? 64)). Qed.

Lemma s2_range :
  forall x y, is_byte x -> is_byte y -> (0 <=? s2 x y) && (s2 x y <? 64) = true.
Proof. by_bytes2 (fun x y => (0 <=? s2 x y) && (s2 x y <? 64)). Qed.

Lemma s3_range :
  forall y z, is_byte y -> is_byte z -> (0 <=? s3 y z) && (s3 y z <? 64) = true.
Proof. by_bytes2 (fun y z => (0 <=? s3 y z) && (s3 y z <? 64)). Qed.

Lemma s4_range : forall z, is_byte z -> (0 <=? s4 z) && (s4 z <? 64) = true.
Proof. by_bytes1 (fun z => (0 <=? s4 z) && (s4 z <? 64)). Qed.

Lemma range_of_test v : (0 <=? v) && (v <? 64) = true -> 0 <= v < 64.
Proof. intros H. apply andb_prop in H. lia. Qed.

Lemma byte1_s x y : is_byte x -> is_byte y -> byte1 (s1 x) (s2 x y) = x.
Proof.
  intros Hx Hy. apply Z.eqb_eq. revert x y Hx Hy.
  by_bytes2 (fun x y => byte1 (s1 x) (s2 x y) =? x).
Qed.

Lemma s2_low x y : is_byte x -> is_byte y -> Z.land (s2 x y) 15 = Z.shiftr y 4.
Proof.
  intros Hx Hy. apply Z.eqb_eq. revert x y Hx Hy.
  by_bytes2 (fun x y => Z.land (s2 x y) 15 =? Z.shiftr y 4).
Qed.

Lemma s3_high y z :
  is_byte y -> is_byte z -> Z.land (s3 y z) 60 = Z.shiftl (Z.land y 15) 2.
Proof.
  intros Hy Hz. apply Z.eqb_eq. revert y z Hy Hz.
  by_bytes2 (fun y z => Z.land (s3 y z) 60 =? Z.shiftl (Z.land y 15) 2).
Qed.

Lemma s3_low y z : is_byte y -> is_byte z -> Z.land (s3 y z) 3 = Z.shiftr z 6.
Proof.
  intros Hy Hz. apply Z.eqb_eq. revert y z Hy Hz.
  by_bytes2 (fun y z => Z.land (s3 y z) 3 =? Z.shiftr z 6).
Qed.

Lemma glue2 y :
  is_byte y ->
  Z.lor (Z.shiftl (Z.shiftr y 4) 4) (Z.shiftr (Z.shiftl (Z.land y 15) 2) 2) = y.
Proof.
  intros Hy. apply Z.eqb_eq. revert y Hy.
  by_bytes1 (fun y =>
    Z.lor (Z.shiftl (Z.shiftr y 4) 4) (Z.shiftr (Z.shiftl (Z.land y 15) 2) 2)
    =? y).
Qed.

Lemma glue3 z :
  is_byte z -> Z.lor (Z.shiftl (Z.shiftr z 6) 6) (Z.land (s4 z) 63) = z.
Proof.
  intros Hz. apply Z.eqb_eq. revert z Hz.
  by_bytes1 (fun z => Z.lor (Z.shiftl (Z.shiftr z 6) 6) (Z.land (s4 z) 63) =? z).
Qed.

Lemma byte2_s x y z :
  is_byte x -> is_byte y -> is_byte z -> byte2 (s2 x y) (s3 y z) = y.
Proof.
  intros Hx Hy Hz. unfold byte2.
  rewrite s2_low, s3_high by assumption. apply glue2, Hy.
Qed.

Lemma byte3_s y z : is_byte y -> is_byte z -> byte3 (s3 y z) (s4 z) = z.
Proof.
  intros Hy Hz. unfold byte3. rewrite s3_low by assumption. apply glue3, Hz.
Qed.

Lemma zero_is_byte : is_byte 0.
Proof. unfold is_byte. lia. Qed.

(** How the decoder reads one printed character. *)
Lemma sextets_printed n rest :
  0 <= n < 64 -> sextets (String (b64char n) rest) = n :: sextets rest.
Proof.
  intros H. rewrite sextets_std by (apply b64char_std, H).
  rewrite sextet_of_b64char by exact H. reflexivity.
Qed.

Lemma narrow_printed n rest :
  0 <= n < 64 ->
  narrow (String (b64char n) rest) = String (b64char n) (narrow rest).
Proof. intros H. apply narrow_std, b64char_std, H. Qed.

Lemma decode_encode_bounded n :
  forall bytes, (List.length bytes <= n)%nat ->
    Forall is_byte bytes -> decode (encode bytes) = bytes.
Proof.
  induction n as [n IH] using lt_wf_ind.
  intros bytes Hlen Hb.
  destruct bytes as [|x [|y [|z rest]]].
  - reflexivity.
  - inversion Hb as [|? ? Hx _]; subst.
    pose proof (range_of_test _ (s1_range x Hx)) as R1.
    pose proof (range_of_test _ (s2_range x 0 Hx zero_is_byte)) as R2.
    unfold decode. cbn [encode]. unfold enc1, enc2.
    change (Z.shiftr x 2) with (s1 x).
    change (Z.lor (Z.shiftl (Z.land x 3) 4) (Z.shiftr 0 4)) with (s2 x 0).
    rewrite !narrow_printed by assumption. rewrite !narrow_pad.
    rewrite !sextets_printed by assumption. rewrite sextets_pad.
    cbn [unpack]. rewrite byte1_s by (assumption || exact zero_is_byte).
    reflexivity.
  - inversion Hb as [|? ? Hx Hb1]; subst. inversion Hb1 as [|? ? Hy _]; subst.
    pose proof (range_of_test _ (s1_range x Hx)) as R1.
    pose proof (range_of_test _ (s2_range x y Hx Hy)) as R2.
    pose proof (range_of_test _ (s3_range y 0 Hy zero_is_byte)) as R3.
    unfold decode. cbn [encode]. unfold enc1, enc2, enc3.
    change (Z.shiftr x 2) with (s1 x).
    change (Z.lor (Z.shiftl (Z.land x 3) 4) (Z.shiftr y 4)) with (s2 x y).
    change (Z.lor (Z.shiftl (Z.land y 15) 2) (Z.shiftr 0 6)) with (s3 y 0).
    rewrite !narrow_printed by assumption. rewrite !narrow_pad.
    rewrite !sextets_printed by assumption. rewrite sextets_pad.
    cbn [unpack]. rewrite byte1_s by assumption.
    rewrite byte2_s by (assumption || exact zero_is_byte). reflexivity.
  - inversion Hb as [|? ? Hx Hb1]; subst.
    inversion Hb1 as [|? ? Hy Hb2]; subst.
    inversion Hb2 as [|? ? Hz Hb3]; subst.
    pose proof (range_of_test _ (s1_range x Hx)) as R1.
    pose proof (range_of_test _ (s2_range x y Hx Hy)) as R2.
    pose proof (range_of_test _ (s3_range y z Hy Hz)) as R3.
    pose proof (range_of_test _ (s4_range z Hz)) as R4.
    unfold decode. cbn [encode]. unfold enc1, enc2, enc3, enc4.
    change (Z.shiftr x 2) with (s1 x).
    change (Z.lor (Z.shiftl (Z.land x 3) 4) (Z.shiftr y 4)) with (s2 x y).
    change (Z.lor (Z.shiftl (Z.land y 15) 2) (Z.shiftr z 6)) with (s3 y z).
    change (Z.land z 63) with (s4 z).
    rewrite !narrow_printed by assumption.
    rewrite !sextets_printed by assumption.
    cbn [unpack]. rewrite byte1_s, byte2_s, byte3_s by assumption.
    f_equal. f_equal. f_equal.
    apply (IH (List.length rest)); [cbn in Hlen; lia | lia | assumption].
Qed.

Lemma decode_encode_bytes bytes :
  Forall is_byte bytes -> decode (encode bytes) = bytes.
Proof. apply (decode_encode_bounded (List.length bytes)). lia. Qed.

(** [Buffer.from(text, "base64")] inverts [toString("base64")]: the bytes
    come back as they were. *)
Theorem base64_decode_inverts_encode bytes :
  Forall is_byte bytes -> decode (encode bytes) = bytes.
Proof. exact (decode_encode_bytes bytes). Qed.

Lemma base64_decode_inverts_encode_witness :
  Forall is_byte [104; 105] /\ encode [104; 105] = "aGk=" /\
  decode (encode [104; 105]) = [104; 105].
Proof.
  assert (H : Forall is_byte [104; 105])
    by (repeat constructor; unfold is_byte; lia).
  split; [exact H|]. split; [reflexivity|].
  apply (base64_decode_inverts_encode [104; 105] H).
Defined.

Lemma reencode_is_valid s : valid (reencode s) = true.
Proof. apply encode_valid, decode_bytes. Qed.

Lemma decode_reencode s : decode (reencode s) = decode s.
Proof. apply decode_encode_bytes, decode_bytes. Qed.

(** Whatever the text given to [Buffer.from], the round trip yields a valid
    base64 string that decodes to the same bytes, and doing it again
    changes nothing. *)
Theorem base64_round_trip_normalises s :
  valid (reencode s) = true /\
  decode (reencode s) = decode s /\
  reencode (reencode s) = reencode s.
Proof.
  split; [apply reencode_is_valid|]. split; [apply decode_reencode|].
  apply reencode_valid, reencode_is_valid.
Qed.

(** The valid base64 strings are exactly what the encoder prints for byte
    sequences. *)
Theorem base64_valid_iff_encoded s :
  valid s = true <-> exists bytes, Forall is_byte bytes /\ s = encode bytes.
Proof.
  split.
  - intros H. exists (decode s). split; [apply decode_bytes|].
    symmetry. exact (reencode_valid s H).
  - intros (bytes & Hb & ->). apply encode_valid, Hb.
Qed.

End Base64RoundTrip.

(** ** The handlers, case by case *)

Import RelayViews RunViews.


Section YieldsFacts.

Variable Q : Call -> Prop.

Lemma yields_ret {A} (a : A) s : yields Q (ret a) s.
Proof. split; [reflexivity | constructor]. Qed.

Lemma yields_throw {A} s : yields Q (@throw A) s.
Proof. split; [reflexivity | constructor]. Qed.

Lemma yields_call c s : Q c -> yields Q (call c) s.
Proof. intros H. split; [reflexivity | repeat constructor; exact H]. Qed.

Lemma yields_bind {A B} (m : M A) (f : A -> M B) s :
  yields Q m s ->
  (forall a, fst (fst (m s)) = Some a -> yields Q (f a) s) ->
  yields Q (bind m f) s.
Proof.
  unfold yields, bind. intros [Hs Ht] Hf.
  destruct (m s) as [[[a|] s1] t1]; cbn in *; subst s1.
  - specialize (Hf a eq_refl). destruct (f a s) as [[r s2] t2]; cbn in *.
    destruct Hf as [-> Hf]. split; [reflexivity|].
    apply Forall_app. split; assumption.
  - split; [reflexivity | assumption].
Qed.

Lemma yields_unwrap {A B} (o : option A) (f : A -> M B) s :
  (forall a, o = Some a -> yields Q (f a) s) ->
  yields Q (bind (unwrap o) f) s.
Proof.
  intros H. apply yields_bind.
  - destruct o; [apply yields_ret | apply yields_throw].
  - intros a Ha. apply H. destruct o; cbn in Ha; congruence.
Qed.

Lemma yields_read {B} (f : State -> M B) s :
  yields Q (f s) s -> yields Q (bind read f) s.
Proof.
  intros H. apply yields_bind; [apply yields_ret|].
  intros a Ha. cbn in Ha. injection Ha as <-. exact H.
Qed.

Lemma yields_seq {A B} (m : M A) (k : M B) s :
  yields Q m s -> yields Q k s -> yields Q (bind m (fun _ => k)) s.
Proof. intros Hm Hk. apply yields_bind; [exact Hm | intros _ _; exact Hk]. Qed.

Lemma yields_try {A} (m h : M A) s :
  yields Q m s -> yields Q h s -> yields Q (try_catch m h) s.
Proof.
  unfold yields, try_catch. intros [Hs Ht] [Hs' Ht'].
  destruct (m s) as [[[a|] s1] t1]; cbn in *; subst s1.
  - split; [reflexivity | assumption].
  - destruct (h s) as [[r s2] t2]; cbn in *. subst s2.
    split; [reflexivity|]. apply Forall_app. split; assumption.
Qed.

End YieldsFacts.

Lemma settles_try {A} (m h : M A) s :
  (forall s1, settles h s1) -> settles (try_catch m h) s.
Proof.
  unfold settles, try_catch. intros H.
  destruct (m s) as [[[a|] s1] t1]; cbn; [discriminate|].
  specialize (H s1). destruct (h s1) as [[r s2] t2]. exact H.
Qed.

Lemma handle_settled (m : M unit) s :
  settles m s -> handle m s = (snd (fst (m s)), snd (m s)).
Proof.
  unfold settles, handle. destruct (m s) as [[[[]|] s1] t1]; cbn; congruence.
Qed.

Lemma settles_on_agent_message data s : settles (on_agent_message data) s.
Proof. apply settles_try. intros s1. discriminate. Qed.

Lemma settles_on_ws_message B data s : settles (on_ws_message B data) s.
Proof. apply settles_try. intros s1. discriminate. Qed.

Lemma opt_member_of_member v k x : member v k = Some x -> opt_member v k = x.
Proof. unfold opt_member. intros ->. reflexivity. Qed.

Lemma yields_case_audio message s :
  yields (agent_message_call s) (case_audio message) s.
Proof.
  unfold case_audio. apply yields_read.
  destruct (truthy (streamSid s)) eqn:Hs; [|apply yields_call; exact I].
  apply yields_unwrap. intros audio _.
  destruct (truthy (opt_member audio "chunk")) eqn:H1.
  - apply yields_unwrap. intros chunk Hc.
    rewrite (opt_member_of_member _ _ _ Hc) in H1.
    apply yields_call. cbn. split; [exact Hs|]. right. eauto.
  - apply yields_unwrap. intros audio_event _.
    destruct (truthy (opt_member audio_event "audio_base_64")) eqn:H2;
      [|apply yields_ret].
    apply yields_unwrap. intros data Hd.
    rewrite (opt_member_of_member _ _ _ Hd) in H2.
    apply yields_call. cbn. split; [exact Hs|]. right. eauto.
Qed.

Lemma yields_case_interruption s :
  yields (agent_message_call s) case_interruption s.
Proof.
  unfold case_interruption. apply yields_read.
  destruct (truthy (streamSid s)) eqn:Hs; [|apply yields_ret].
  apply yields_call. cbn. split; [exact Hs|]. left. reflexivity.
Qed.

Lemma yields_case_ping message s :
  yields (agent_message_call s) (case_ping message) s.
Proof.
  unfold case_ping. apply yields_unwrap. intros ping_event _.
  destruct (truthy (opt_member ping_event "event_id")) eqn:H1;
    [|apply yields_ret].
  apply yields_unwrap. intros id Hid.
  rewrite (opt_member_of_member _ _ _ Hid) in H1.
  unfold agent_send. apply yields_read.
  destruct (elevenLabsWs s) as [k|] eqn:Hk; [|apply yields_throw].
  apply yields_seq.
  - apply yields_call. cbn. split; [exact Hk|]. eauto.
  - destruct (agent_state s k) as [[]|];
      first [apply yields_throw | apply yields_ret].
Qed.

Lemma yields_dispatch ty message s :
  yields (agent_message_call s) (dispatch ty message) s.
Proof.
  unfold dispatch.
  repeat match goal with
         | |- yields _ (if ?b then _ else _) _ => destruct b
         end;
    first [ apply yields_case_audio
          | apply yields_case_interruption
          | apply yields_case_ping
          | apply yields_call; exact I ].
Qed.

Lemma yields_on_agent_message data s :
  yields (agent_message_call s) (on_agent_message data) s.
Proof.
  unfold on_agent_message.
  apply yields_try; [|apply yields_call; exact I].
  apply yields_unwrap. intros message _.
  apply yields_unwrap. intros ty _.
  apply yields_unwrap. intros error_event _.
  apply yields_seq; [destruct (_ || _); apply yields_call; exact I|].
  apply yields_seq; [apply yields_dispatch|].
  apply yields_call. exact I.
Qed.

(** Whatever the agent sends, parsable or not, the message handler leaves
    the session as it is, lets no exception escape, and makes no call
    other than a log, a [clear] or [media] frame addressed to the stream
    of the session (only when that is set), or a pong on the socket the
    session holds: no close, no timer, no fetch, no new socket. *)
Theorem agent_message_effects (s : State) (data : option value) :
  fst (handle (on_agent_message data) s) = s /\
  Forall (agent_message_call s) (snd (handle (on_agent_message data) s)).
Proof.
  rewrite (handle_settled _ _ (settles_on_agent_message data s)).
  exact (yields_on_agent_message data s).
Qed.

(** *** The close handler of the agent socket *)

Lemma on_agent_close_cases (s : State) (code : Z) (reason : string) :
  handle (on_agent_close code reason) s =
    if isCallActive s && truthy (streamSid s) then
      (teardown s,
       [Log "[ElevenLabs] Disconnected with code";
        Log "[Twilio] Ending call because ElevenLabs disconnected";
        WsSend (stop_frame (streamSid s));
        SetTimeout CloseTelephony 2000;
        Log "[ElevenLabs] Not reconnecting as call is no longer active"])
    else if negb (code =? 1000) && isCallActive s then
      (set_timers (timers s ++ [(clock s + 3000, RunSetup)]) s,
       [Log "[ElevenLabs] Disconnected with code";
        Log "[ElevenLabs] Attempting to reconnect in 3 seconds...";
        SetTimeout RunSetup 3000])
    else
      (s,
       [Log "[ElevenLabs] Disconnected with code";
        Log "[ElevenLabs] Not reconnecting as call is no longer active"]).
Proof.
  unfold on_agent_close. run_handler.
  destruct (isCallActive s) eqn:Ha, (truthy (streamSid s)) eqn:Hs;
    cbn [andb]; cbn; rewrite ?Ha;
    destruct (code =? 1000); reflexivity.
Qed.

(** The close handler sets a reconnection timer exactly when the close is
    abnormal and the session is active with no stream id.  When the
    session is active and its stream id is set, a close with any code,
    abnormal ones included, ends the call instead: one [stop] frame, the
    session inactive, and no reconnection.  In every other case nothing
    is sent to the telephony leg and the active flag is unchanged. *)
Theorem close_reconnects_only_without_stream_id
    (s : State) (code : Z) (reason : string) :
  filter (is_set_timeout RunSetup)
    (snd (handle (on_agent_close code reason) s)) =
    (if negb (code =? 1000) && isCallActive s && negb (truthy (streamSid s))
     then [SetTimeout RunSetup 3000] else []) /\
  filter is_ws_send (snd (handle (on_agent_close code reason) s)) =
    (if isCallActive s && truthy (streamSid s)
     then [WsSend (Obj [("event", Str "stop"); ("streamSid", streamSid s)])]
     else []) /\
  isCallActive (fst (handle (on_agent_close code reason) s)) =
    isCallActive s && negb (truthy (streamSid s)).
Proof.
  rewrite on_agent_close_cases.
  destruct (isCallActive s) eqn:Ha, (truthy (streamSid s)), (code =? 1000);
    cbn; rewrite ?Ha; repeat split; reflexivity.
Qed.

Lemma close_on_inactive_session_is_inert_aux
    (s : State) (code : Z) (reason : string) :
  isCallActive s = false ->
  handle (on_agent_close code reason) s =
    (s, [Log "[ElevenLabs] Disconnected with code";
         Log "[ElevenLabs] Not reconnecting as call is no longer active"]).
Proof.
  intros H. rewrite on_agent_close_cases, H, andb_false_r. reflexivity.
Qed.

(** On an inactive session a close event of the agent socket, whatever
    its code, only logs: nothing is sent to the telephony leg, no timer is
    set, the session is unchanged. *)
Theorem close_on_inactive_session_is_inert
    (s : State) (code : Z) (reason : string) :
  isCallActive s = false ->
  handle (on_agent_close code reason) s =
    (s, [Log "[ElevenLabs] Disconnected with code";
         Log "[ElevenLabs] Not reconnecting as call is no longer active"]).
Proof. exact (close_on_inactive_session_is_inert_aux s code reason). Qed.

Lemma close_on_inactive_session_is_inert_witness :
  isCallActive fresh = false /\
  handle (on_agent_close 1006 "gone") fresh =
    (fresh, [Log "[ElevenLabs] Disconnected with code";
             Log "[ElevenLabs] Not reconnecting as call is no longer active"]).
Proof.
  split; [reflexivity|].
  apply (close_on_inactive_session_is_inert fresh 1006 "gone"). reflexivity.
Defined.

(** *** Interruption *)

(** Once the stream id is set, an [interruption] message from the agent
    makes the relay send exactly one frame to the telephony leg,
    [{event: "clear", streamSid}] with the current stream id, and leaves
    the session as it was. *)
Theorem interruption_clears_playback (s : State) (message : value) :
  truthy (streamSid s) = true ->
  member message "type" = Some (Str "interruption") ->
  fst (handle (on_agent_message (Some message)) s) = s /\
  filter is_ws_send (snd (handle (on_agent_message (Some message)) s)) =
    [WsSend (Obj [("event", Str "clear"); ("streamSid", streamSid s)])].
Proof.
  intros Hs Hty.
  destruct (typed_is_object _ _ Hty) as (fields & -> & Hl).
  unfold on_agent_message, dispatch, case_interruption.
  destruct (truthy (lookup "error_event" fields)) eqn:He;
    eval_with ltac:(rewrite ?Hl, ?He, ?Hs);
    split; reflexivity.
Qed.

Lemma interruption_clears_playback_witness :
  truthy (streamSid active_session) = true /\
  filter is_ws_send
    (snd (handle (on_agent_message (Some (Obj [("type", Str "interruption")])))
            active_session)) =
    [WsSend (Obj [("event", Str "clear"); ("streamSid", Str "ST1")])].
Proof.
  split; [reflexivity|].
  apply (interruption_clears_playback active_session
           (Obj [("type", Str "interruption")])); reflexivity.
Defined.

(** *** The initial configuration *)

Lemma truthy_or a b : truthy b = true -> truthy (or a b) = true.
Proof. intros H. unfold or. destruct (truthy a) eqn:E; assumption. Qed.

(** Every dynamic variable sent to the agent is truthy: whatever the
    custom parameters are (absent, empty, [null]), no variable is ever
    empty or missing. *)
Theorem initial_config_variables_are_never_empty (s : State) (c : conn) :
  elevenLabsWs s = Some c ->
  exists vars,
    filter is_agent_send (snd (handle on_agent_open s)) =
      [AgentSend c (Obj [("type", Str "conversation_initiation_client_data");
                         ("dynamic_variables", Obj vars)])] /\
    Forall (fun kv => truthy (snd kv) = true) vars.
Proof.
  intros Hc. destruct (on_agent_open_send s c Hc) as [_ Hsend].
  eexists.
  split; [rewrite Hsend; unfold initialConfig, dynamic_variables;
          reflexivity|].
  repeat constructor; cbn [snd]; apply truthy_or; reflexivity.
Qed.

Lemma initial_config_variables_are_never_empty_witness :
  elevenLabsWs (set_customParameters
                  (Obj [("name", Str EmptyString); ("client_id", Null)])
                  active_session) = Some 0%nat /\
  exists vars,
    filter is_agent_send
      (snd (handle on_agent_open
              (set_customParameters
                 (Obj [("name", Str EmptyString); ("client_id", Null)])
                 active_session))) =
      [AgentSend 0%nat
         (Obj [("type", Str "conversation_initiation_client_data");
               ("dynamic_variables", Obj vars)])] /\
    Forall (fun kv => truthy (snd kv) = true) vars.
Proof.
  split; [reflexivity|].
  apply (initial_config_variables_are_never_empty
           (set_customParameters
              (Obj [("name", Str EmptyString); ("client_id", Null)])
              active_session) 0%nat).
  reflexivity.
Defined.

(** *** The telephony leg *)

Lemma event_is_object msg ev :
  member msg "event" = Some (Str ev) ->
  exists fields, msg = Obj fields /\ lookup "event" fields = Str ev.
Proof.
  destruct msg; cbn; try discriminate.
  intros H. injection H as H. eauto.
Qed.

Lemma nth_error_update {A} (l : list A) i a x :
  nth_error l i = Some x -> nth_error (update l i a) i = Some a.
Proof.
  revert i. induction l as [|y l IH]; intros [|i]; cbn; try discriminate.
  - reflexivity.
  - apply IH.
Qed.

Lemma on_ws_start B (s : State) (msg : value) :
  member msg "event" = Some (Str "start") ->
  handle (on_ws_message B (Some msg)) s =
    match member (opt_member msg "start") "streamSid" with
    | Some sid =>
        (started sid (opt_member (opt_member msg "start") "callSid")
           (opt_member (opt_member msg "start") "customParameters") s,
         [Log "[Twilio] Received event:"; Log "[Twilio] Stream started";
          Log "[Twilio] Start parameters:"])
    | None =>
        (s, [Log "[Twilio] Received event:";
             LogError "[Twilio] Error processing message:"])
    end.
Proof.
  intros Hev.
  destruct (event_is_object _ _ Hev) as (fields & -> & Hl).
  unfold on_ws_message, case_start.
  cbn [opt_member member].
  eval_with ltac:(rewrite ?Hl).
  destruct (lookup "start" fields) as [| |b|n|str|items|fs];
    cbn; reflexivity.
Qed.




Lemma on_ws_stop B (s : State) (fields : list (string * value)) :
  lookup "event" fields = Str "stop" ->
  handle (on_ws_message B (Some (Obj fields))) s =
    match elevenLabsWs s with
    | Some c =>
        if agent_is_open s then
          (set_agent_state c CLOSING (set_isCallActive false s),
           [Log "[Twilio] Received event:"; Log "[Twilio] Stream ended";
            Log "[Twilio] Closing ElevenLabs connection because call ended";
            AgentClose c 1000 "Call ended normally"])
        else
          (set_isCallActive false s,
           [Log "[Twilio] Received event:"; Log "[Twilio] Stream ended"])
    | None =>
        (set_isCallActive false s,
         [Log "[Twilio] Received event:"; Log "[Twilio] Stream ended"])
    end.
Proof.
  intros Hl. unfold on_ws_message, case_stop.
  eval_with ltac:(rewrite ?Hl).
  change (agent_is_open (set_isCallActive false s)) with (agent_is_open s).
  unfold agent_is_open.
  destruct (elevenLabsWs s) as [c|] eqn:Hc;
    [destruct (agent_state s c) as [[]|]|];
    cbn; rewrite ?Hc; reflexivity.
Qed.

Lemma agent_state_set c r s x :
  agent_state s c = Some x -> agent_state (set_agent_state c r s) c = Some r.
Proof. unfold agent_state. cbn. apply nth_error_update. Qed.



Lemma on_ws_close_cases (s : State) :
  handle on_ws_close s =
    match elevenLabsWs s with
    | Some c =>
        if agent_is_open s then
          (set_agent_state c CLOSING (set_isCallActive false s),
           [Log "[Twilio] Client disconnected";
            AgentClose c 1000 "Twilio client disconnected"])
        else (set_isCallActive false s, [Log "[Twilio] Client disconnected"])
    | None => (set_isCallActive false s, [Log "[Twilio] Client disconnected"])
    end.
Proof.
  unfold on_ws_close. eval_with idtac.
  change (agent_is_open (set_isCallActive false s)) with (agent_is_open s).
  unfold agent_is_open.
  destruct (elevenLabsWs s) as [c|] eqn:Hc;
    [destruct (agent_state s c) as [[]|]|];
    cbn; rewrite ?Hc; reflexivity.
Qed.

(** When the telephony socket closes, the session becomes inactive and
    the agent socket it holds is closed with code 1000 if, and only if,
    it is open; nothing is sent to the telephony leg, no timer is set or
    cleared, no setup is started. *)
Theorem telephony_close_tears_down B (s : State) :
  is_closed (wsReadyState s) = false ->
  exists s1 t1,
    step B s WsClosed = Some (s1, t1) /\
    isCallActive s1 = false /\
    filter is_agent_call t1 =
      match elevenLabsWs s with
      | Some c =>
          if agent_is_open s
          then [AgentClose c 1000 "Twilio client disconnected"] else []
      | None => []
      end /\
    agent_is_open s1 = false /\
    filter is_ws_send t1 = [] /\
    filter is_reconnect t1 = [] /\
    timers s1 = timers s /\
    streamSid s1 = streamSid s.
Proof.
  intros Hws. cbn [step]. rewrite Hws, on_ws_close_cases.
  change (elevenLabsWs (set_wsReadyState CLOSED s)) with (elevenLabsWs s).
  change (agent_is_open (set_wsReadyState CLOSED s)) with (agent_is_open s).
  destruct (elevenLabsWs s) as [c|] eqn:Hc.
  - destruct (agent_is_open s) eqn:Ho.
    + do 2 eexists. split; [reflexivity|]. repeat split; try reflexivity.
      unfold agent_is_open in Ho |- *. rewrite Hc in Ho.
      cbn [elevenLabsWs set_agent_state set_agents set_isCallActive
           set_wsReadyState].
      rewrite Hc.
      destruct (agent_state s c) as [x|] eqn:Hx; [|discriminate].
      rewrite (agent_state_set c CLOSING _ x); [reflexivity|exact Hx].
    + do 2 eexists. split; [reflexivity|]. repeat split; try reflexivity.
      exact Ho.
  - do 2 eexists. split; [reflexivity|]. repeat split; try reflexivity.
    unfold agent_is_open. cbn. rewrite Hc. reflexivity.
Qed.

Lemma telephony_close_tears_down_witness :
  is_closed (wsReadyState active_session) = false /\
  exists s1 t1,
    step refuse active_session WsClosed = Some (s1, t1) /\
    isCallActive s1 = false /\
    filter is_agent_call t1 = [AgentClose 0%nat 1000 "Twilio client disconnected"].
Proof.
  split; [reflexivity|].
  destruct (telephony_close_tears_down refuse active_session eq_refl)
    as (s1 & t1 & H1 & H2 & H3 & _).
  exists s1, t1. repeat split; assumption.
Defined.

Lemma plumbing_set_agent_state c r s :
  plumbing (set_agent_state c r s) = plumbing s.
Proof. unfold plumbing, sockets. cbn. rewrite length_update. reflexivity. Qed.

Ltac keeps_plumbing :=
  repeat first
    [ apply keeps_ret | apply keeps_throw | apply keeps_unwrap
    | apply keeps_read
    | apply keeps_call; reflexivity
    | apply keeps_write; intros ?;
      first [reflexivity | apply plumbing_set_agent_state]
    | apply keeps_try
    | apply keeps_when
    | apply keeps_bind; [ | intros ? ]
    | match goal with
      | |- keeps _ _ (match ?x with _ => _ end) => destruct x
      end ].

Lemma plumbing_on_ws_message B data :
  keeps plumbing beyond_telephony (on_ws_message B data).
Proof.
  unfold on_ws_message, case_start, case_media, case_stop, buffer_roundtrip,
    agent_send, agent_close.
  keeps_plumbing.
Qed.

(** Whatever the telephony leg sends, parsable or not, handling it lets no
    exception escape, sends nothing back to the telephony leg, sets no
    timer, starts no setup and opens no socket; the pending timers, the
    pending fetches, the agent socket the session holds and the number of
    sockets are as before. *)
Theorem telephony_message_never_reconnects
    B (s : State) (data : option value) :
  plumbing (fst (handle (on_ws_message B data) s)) = plumbing s /\
  filter beyond_telephony (snd (handle (on_ws_message B data) s)) = [].
Proof.
  rewrite (handle_settled _ _ (settles_on_ws_message B data s)).
  exact (plumbing_on_ws_message B data s).
Qed.

(** A frame the handler has no case for is logged and ignored: the
    session is unchanged and every call is a log. *)
Theorem unrecognised_frame_is_ignored B (s : State) (data : option value) :
  unrecognised data ->
  fst (handle (on_ws_message B data) s) = s /\
  forallb is_log (snd (handle (on_ws_message B data) s)) = true.
Proof.
  intros H. unfold on_ws_message.
  destruct data as [msg|]; [|split; reflexivity].
  cbn [unrecognised] in H.
  destruct (member msg "event") as [event|] eqn:Hev.
  - destruct H as (H1 & H2 & H3).
    eval_with ltac:(rewrite ?Hev, ?H1, ?H2, ?H3).
    cbn. split; reflexivity.
  - eval_with ltac:(rewrite ?Hev). split; reflexivity.
Qed.

Lemma unrecognised_frame_is_ignored_witness :
  unrecognised (Some (Obj [("event", Str "mark")])) /\
  unrecognised (Some Null) /\
  handle (on_ws_message refuse (Some (Obj [("event", Str "mark")])))
    active_session =
    (active_session,
     [Log "[Twilio] Received event:"; Log "[Twilio] Unhandled event:"]) /\
  fst (handle (on_ws_message refuse (Some Null)) active_session)
    = active_session.
Proof.
  assert (U1 : unrecognised (Some (Obj [("event", Str "mark")])))
    by (cbn; repeat split; reflexivity).
  assert (U2 : unrecognised (Some Null)) by exact I.
  split; [exact U1|]. split; [exact U2|]. split; [reflexivity|].
  apply (unrecognised_frame_is_ignored refuse active_session (Some Null) U2).
Defined.

(** ** Accounting over runs *)


Lemma filter_none_weaken {A} (P Q : A -> bool) (l : list A) :
  (forall a, Q a = true -> P a = true) -> filter P l = [] -> filter Q l = [].
Proof.
  intros H. induction l as [|a l IH]; cbn; [reflexivity|].
  destruct (P a) eqn:Pa; [discriminate|].
  destruct (Q a) eqn:Qa; [rewrite (H a Qa) in Pa; discriminate|].
  exact IH.
Qed.

Lemma filter_none_of_forall {A} (Q : A -> Prop) (P : A -> bool) (l : list A) :
  (forall a, Q a -> P a = false) -> Forall Q l -> filter P l = [].
Proof.
  intros H HF. induction HF as [|a l Ha _ IH]; cbn; [reflexivity|].
  rewrite (H a Ha). exact IH.
Qed.

Lemma forall_of_filter_none {A} (P : A -> bool) (Q : A -> Prop) (l : list A) :
  (forall a, P a = false -> Q a) -> filter P l = [] -> Forall Q l.
Proof.
  intros H. induction l as [|a l IH]; cbn; [constructor|].
  destruct (P a) eqn:Pa; [discriminate|].
  intros Hl. constructor; [apply H, Pa | apply IH, Hl].
Qed.

(** What each handler does to the timers and to the trace, in the terms
    of the accounting. *)

Lemma on_agent_open_cases (s : State) :
  handle on_agent_open s =
    (s, [Log "[ElevenLabs] Connected to Conversational AI";
         Log "[ElevenLabs] Sending initial config with dynamic variables"] ++
        match elevenLabsWs s with
        | Some c =>
            AgentSend c (initialConfig s) ::
            match agent_state s c with
            | Some CONNECTING => [Uncaught]
            | _ => []
            end
        | None => [Uncaught]
        end).
Proof.
  unfold on_agent_open.
  destruct (elevenLabsWs s) as [c|] eqn:Hc;
    [destruct (agent_state s c) as [[]|] eqn:Hst|];
    eval_with ltac:(rewrite ?Hc, ?Hst); reflexivity.
Qed.

Lemma nth_error_update_other {A} (l : list A) i j a :
  i <> j -> nth_error (update l i a) j = nth_error l j.
Proof.
  revert i j. induction l as [|y l IH]; intros [|i] [|j] H; cbn;
    try reflexivity; try congruence.
  apply IH. congruence.
Qed.

(** The socket that opens is not the one a throwing send was made on. *)
Lemma connecting_after_open s c k :
  agent_state s c = Some CONNECTING ->
  agent_state (set_agent_state c OPEN s) k = Some CONNECTING ->
  k <> c /\ agent_state s k = Some CONNECTING.
Proof.
  unfold agent_state. cbn [agents set_agent_state set_agents].
  intros Hc Hk. destruct (Nat.eq_dec c k) as [<-|Hne].
  - rewrite (nth_error_update _ _ _ _ Hc) in Hk. discriminate.
  - rewrite nth_error_update_other in Hk by exact Hne.
    split; [congruence | exact Hk].
Qed.

Lemma agent_message_call_plain s c :
  agent_message_call s c -> beyond_telephony c = false \/ is_ws_send c = true.
Proof. destruct c; cbn; intros H; try contradiction; auto. Qed.

Lemma agent_message_no_bookkeeping s data :
  fst (handle (on_agent_message data) s) = s /\
  filter is_fetch (snd (handle (on_agent_message data) s)) = [] /\
  filter (is_set_timeout RunSetup) (snd (handle (on_agent_message data) s)) = [] /\
  forall e, Forall (bookkeeping_call s e) (snd (handle (on_agent_message data) s)).
Proof.
  rewrite (handle_settled _ _ (settles_on_agent_message data s)).
  destruct (yields_on_agent_message data s) as [Hs Ht].
  split; [exact Hs|]. split; [|split].
  - apply (filter_none_of_forall (agent_message_call s)); [|exact Ht].
    intros [] H; cbn in *; try contradiction; reflexivity.
  - apply (filter_none_of_forall (agent_message_call s)); [|exact Ht].
    intros [] H; cbn in *; try contradiction; reflexivity.
  - intros e. eapply Forall_impl; [|exact Ht].
    intros [] H; cbn in *; try contradiction; exact I.
Qed.

Lemma telephony_no_bookkeeping B s data :
  timers (fst (handle (on_ws_message B data) s)) = timers s /\
  filter is_fetch (snd (handle (on_ws_message B data) s)) = [] /\
  filter (is_set_timeout RunSetup) (snd (handle (on_ws_message B data) s)) = [] /\
  forall e, Forall (bookkeeping_call s e) (snd (handle (on_ws_message B data) s)).
Proof.
  rewrite (handle_settled _ _ (settles_on_ws_message B data s)).
  destruct (plumbing_on_ws_message B data s) as [Hs Ht].
  split; [|split; [|split]].
  - apply (f_equal (fun p => fst (fst (fst p)))) in Hs. exact Hs.
  - apply (filter_none_weaken beyond_telephony); [|exact Ht].
    intros [] H; cbn in *; congruence.
  - apply (filter_none_weaken beyond_telephony); [|exact Ht].
    intros [] H; cbn in *; congruence.
  - intros e. apply (forall_of_filter_none beyond_telephony); [|exact Ht].
    intros [] H; cbn in *; try congruence; exact I.
Qed.

Lemma pending_setups_remove i l due a :
  nth_error l i = Some (due, a) ->
  (List.length (filter (fun t : Z * TimerAction =>
                          match snd t with RunSetup => true | _ => false end)
                  (remove_nth i l))
   + match a with RunSetup => 1 | CloseTelephony => 0 end)%nat
  = List.length (filter (fun t : Z * TimerAction =>
                           match snd t with RunSetup => true | _ => false end) l).
Proof.
  revert i. induction l as [|[d b] l IH]; intros [|i] H; cbn in H;
    try discriminate.
  - injection H as -> ->. cbn. destruct a; cbn; lia.
  - cbn. specialize (IH i H). destruct b; cbn; lia.
Qed.

Lemma some_pair {A B} (x : A * B) a b :
  Some x = Some (a, b) -> a = fst x /\ b = snd x.
Proof. intros H. injection H as ->. split; reflexivity. Qed.

Ltac by_table :=
  repeat first [ apply Forall_nil | apply Forall_cons ];
  cbn; try exact I; eauto 12.

Ltac step_result H := apply some_pair in H; destruct H as [-> ->].

(** One event: the accounting of reconnection timers and fetches, and the
    table of who may call what. *)
Lemma step_bookkeeping B s e s1 t1 :
  step B s e = Some (s1, t1) ->
  (pending_setups s1 + fetches t1 = pending_setups s + scheduled t1)%nat /\
  Forall (bookkeeping_call s e) t1.
Proof.
  intros Hstep. destruct e; cbn [step] in Hstep.
  - destruct (is_closed (wsReadyState s)); [discriminate|].
    step_result Hstep.
    destruct (telephony_no_bookkeeping B s data) as (H1 & H2 & H3 & H4).
    unfold fetches, scheduled, pending_setups. rewrite H1, H2, H3.
    split; [reflexivity | apply H4].
  - destruct (is_closed (wsReadyState s)); [discriminate|].
    step_result Hstep. split; [reflexivity | by_table].
  - destruct (is_closed (wsReadyState s)); [discriminate|].
    step_result Hstep. rewrite on_ws_close_cases.
    cbn [elevenLabsWs set_wsReadyState].
    destruct (elevenLabsWs s); [destruct (agent_is_open _)|];
      (split; [reflexivity | by_table]).
  - destruct (fetching s) as [|n]; [discriminate|].
    step_result Hstep.
    destruct r; (split; [reflexivity | by_table]).
  - destruct (agent_state s c) as [[]|] eqn:Hst; try discriminate.
    step_result Hstep. rewrite on_agent_open_cases.
    change (elevenLabsWs (set_agent_state c OPEN s)) with (elevenLabsWs s).
    destruct (elevenLabsWs s) as [k|] eqn:Hc;
      [destruct (agent_state (set_agent_state c OPEN s) k) as [[]|] eqn:Hk|];
      (split; [reflexivity | by_table]).
    destruct (connecting_after_open s c k Hst Hk) as [Hne Hk'].
    exists c. split; [reflexivity|]. right. exists k. auto.
  - destruct (agent_state s c) as [[]|]; try discriminate;
      step_result Hstep;
      destruct (agent_message_no_bookkeeping s data) as (H1 & H2 & H3 & H4);
      unfold fetches, scheduled; rewrite H1, H2, H3;
      (split; [reflexivity | apply H4]).
  - destruct (agent_state s c) as [[]|]; try discriminate;
      step_result Hstep;
      (split; [unfold pending_setups, fetches, scheduled; cbn;
               rewrite filter_app, length_app; cbn; lia
              | by_table]).
  - destruct (agent_state s c) as [[]|]; try discriminate;
      step_result Hstep;
      rewrite on_agent_close_cases;
      cbn [isCallActive streamSid set_agent_state set_agents timers clock];
      destruct (isCallActive s), (truthy (streamSid s));
      destruct (code =? 1000) eqn:Hcode; cbn [andb negb];
      (split; [unfold pending_setups, fetches, scheduled; cbn;
               rewrite ?filter_app, ?length_app; cbn; lia
              | try (apply Z.eqb_neq in Hcode); by_table]).
  - destruct (nth_error (timers s) i) as [[due a]|] eqn:Hi; [|discriminate].
    destruct (due <=? clock s); [|discriminate].
    step_result Hstep.
    pose proof (pending_setups_remove i (timers s) due a Hi) as Hr.
    destruct a.
    + split; [unfold pending_setups, fetches, scheduled in *; cbn in *; lia
             | by_table].
    + cbn [fire]. unfold handle. eval_with idtac.
      cbn [wsReadyState set_timers].
      destruct (is_open (wsReadyState s));
        (split; [unfold pending_setups, fetches, scheduled in *; cbn in *; lia
                | by_table]).
  - destruct (0 <=? ms); [|discriminate].
    step_result Hstep. split; [reflexivity | by_table].
Qed.

Lemma is_str_eq v lit : is_str v lit = true -> v = Str lit.
Proof.
  destruct v; cbn; try discriminate.
  intros H. apply String.eqb_eq in H. congruence.
Qed.

Lemma flag_case_media B msg : keeps isCallActive nothing (case_media B msg).
Proof. unfold case_media, buffer_roundtrip, agent_send. keeps_auto. Qed.

(** A telephony frame other than a start frame keeps the stream id and
    never raises the active flag. *)
Lemma on_ws_message_flag B data s :
  is_start (WsMessage data) = false ->
  streamSid (fst (handle (on_ws_message B data) s)) = streamSid s /\
  (isCallActive (fst (handle (on_ws_message B data) s)) = true ->
   isCallActive s = true).
Proof.
  intros Hns. split.
  - apply (keeps_handle streamSid is_ws_send);
      [apply stream_on_ws_message, Hns | reflexivity].
  - destruct data as [msg|]; [|cbn; trivial].
    cbn [is_start] in Hns.
    destruct (member msg "event") as [event|] eqn:Hev;
      [|unfold on_ws_message; eval_with ltac:(rewrite ?Hev); trivial].
    destruct (is_str event "stop") eqn:Hstop.
    + apply is_str_eq in Hstop. subst event.
      destruct (event_is_object _ _ Hev) as (fields & -> & Hl).
      rewrite (on_ws_stop B s fields Hl).
      destruct (elevenLabsWs s); [destruct (agent_is_open s)|];
        cbn; discriminate.
    + assert (K : keeps isCallActive nothing (on_ws_message B (Some msg))).
      { unfold on_ws_message. apply keeps_try; [|keeps_auto].
        cbn [unwrap]. apply keeps_bind_ret. rewrite Hev.
        cbn [unwrap]. apply keeps_bind_ret. rewrite Hns, Hstop.
        apply keeps_bind; [keeps_auto | intros _].
        destruct (is_str event "media"); [apply flag_case_media|].
        keeps_auto. }
      destruct (keeps_handle isCallActive nothing _ s K eq_refl) as [-> _].
      trivial.
Qed.

Lemma step_active_has_stream B s e s1 t1 :
  active_has_stream s -> well_formed_start e = true ->
  step B s e = Some (s1, t1) -> active_has_stream s1.
Proof.
  intros Inv Hwf Hstep. destruct e; cbn [step] in Hstep.
  - destruct (is_closed (wsReadyState s)); [discriminate|].
    step_result Hstep.
    destruct (is_start (WsMessage data)) eqn:Hst.
    + destruct data as [msg|]; [|discriminate]. cbn in Hst, Hwf.
      destruct (member msg "event") as [event|] eqn:Hev; [|discriminate].
      rewrite Hst in Hwf. apply is_str_eq in Hst. subst event.
      rewrite (on_ws_start B s msg Hev).
      destruct (member (opt_member msg "start") "streamSid") as [sid|] eqn:Hsid;
        [|exact Inv].
      rewrite (opt_member_of_member _ _ _ Hsid) in Hwf.
      intros _. exact Hwf.
    + destruct (on_ws_message_flag B data s Hst) as [H1 H2].
      intros Ha. rewrite H1. apply Inv, H2, Ha.
  - destruct (is_closed (wsReadyState s)); [discriminate|].
    step_result Hstep. exact Inv.
  - destruct (is_closed (wsReadyState s)); [discriminate|].
    step_result Hstep. rewrite on_ws_close_cases.
    cbn [elevenLabsWs set_wsReadyState].
    destruct (elevenLabsWs s); [destruct (agent_is_open _)|];
      intros Ha; discriminate Ha.
  - destruct (fetching s) as [|n]; [discriminate|].
    step_result Hstep. destruct r; exact Inv.
  - destruct (agent_state s c) as [[]|]; try discriminate.
    step_result Hstep. rewrite on_agent_open_cases. exact Inv.
  - destruct (agent_state s c) as [[]|]; try discriminate;
      step_result Hstep;
      destruct (agent_message_no_bookkeeping s data) as (-> & _); exact Inv.
  - destruct (agent_state s c) as [[]|]; try discriminate;
      step_result Hstep; exact Inv.
  - destruct (agent_state s c) as [[]|]; try discriminate;
      step_result Hstep;
      rewrite on_agent_close_cases;
      cbn [isCallActive streamSid set_agent_state set_agents];
      destruct (isCallActive s) eqn:Ha, (truthy (streamSid s)) eqn:Hs;
      destruct (code =? 1000); cbn [andb negb fst];
      unfold active_has_stream in *; cbn; intros H;
      first [ discriminate H | apply Inv; assumption | congruence ].
  - destruct (nth_error (timers s) i) as [[due a]|] eqn:Hi; [|discriminate].
    destruct (due <=? clock s); [|discriminate].
    step_result Hstep. destruct a; [exact Inv|].
    cbn [fire]. unfold handle. eval_with idtac.
    cbn [wsReadyState set_timers].
    destruct (is_open (wsReadyState s)); exact Inv.
  - destruct (0 <=? ms); [|discriminate].
    step_result Hstep. exact Inv.
Qed.

Lemma step_scheduled B s e s1 t1 :
  active_has_stream s ->
  step B s e = Some (s1, t1) ->
  scheduled t1 = if is_agent_error e then 1%nat else 0%nat.
Proof.
  intros Inv Hstep. unfold active_has_stream in Inv.
  destruct e; cbn [step] in Hstep; cbn [is_agent_error].
  - destruct (is_closed (wsReadyState s)); [discriminate|].
    step_result Hstep.
    destruct (telephony_no_bookkeeping B s data) as (_ & _ & H3 & _).
    unfold scheduled. rewrite H3. reflexivity.
  - destruct (is_closed (wsReadyState s)); [discriminate|].
    step_result Hstep. reflexivity.
  - destruct (is_closed (wsReadyState s)); [discriminate|].
    step_result Hstep. rewrite on_ws_close_cases.
    cbn [elevenLabsWs set_wsReadyState].
    destruct (elevenLabsWs s); [destruct (agent_is_open _)|]; reflexivity.
  - destruct (fetching s) as [|n]; [discriminate|].
    step_result Hstep. destruct r; reflexivity.
  - destruct (agent_state s c) as [[]|]; try discriminate.
    step_result Hstep. rewrite on_agent_open_cases.
    destruct (elevenLabsWs _) as [k|];
      [destruct (agent_state _ k) as [[]|]|]; reflexivity.
  - destruct (agent_state s c) as [[]|]; try discriminate;
      step_result Hstep;
      destruct (agent_message_no_bookkeeping s data) as (_ & _ & H3 & _);
      unfold scheduled; rewrite H3; reflexivity.
  - destruct (agent_state s c) as [[]|]; try discriminate;
      step_result Hstep; reflexivity.
  - destruct (agent_state s c) as [[]|]; try discriminate;
      step_result Hstep;
      rewrite on_agent_close_cases;
      cbn [isCallActive streamSid set_agent_state set_agents];
      destruct (isCallActive s) eqn:Ha, (truthy (streamSid s)) eqn:Hs;
      destruct (code =? 1000); cbn [andb negb]; try reflexivity;
      specialize (Inv eq_refl); discriminate.
  - destruct (nth_error (timers s) i) as [[due a]|] eqn:Hi; [|discriminate].
    destruct (due <=? clock s); [|discriminate].
    step_result Hstep. destruct a; [reflexivity|].
    cbn [fire]. unfold handle. eval_with idtac.
    cbn [wsReadyState set_timers].
    destruct (is_open (wsReadyState s)); reflexivity.
  - destruct (0 <=? ms); [|discriminate].
    step_result Hstep. reflexivity.
Qed.

Lemma fetches_app t1 t2 : fetches (t1 ++ t2) = (fetches t1 + fetches t2)%nat.
Proof. unfold fetches. rewrite filter_app, length_app. reflexivity. Qed.

Lemma scheduled_app t1 t2 :
  scheduled (t1 ++ t2) = (scheduled t1 + scheduled t2)%nat.
Proof. unfold scheduled. rewrite filter_app, length_app. reflexivity. Qed.

Lemma run_bookkeeping B es :
  forall s s' t,
    run B s es = Some (s', t) ->
    (pending_setups s' + fetches t = pending_setups s + scheduled t)%nat.
Proof.
  induction es as [|e es IH]; intros s s' t Hrun; cbn in Hrun.
  - injection Hrun as <- <-. reflexivity.
  - destruct (step B s e) as [[s1 t1]|] eqn:Hstep; [|discriminate].
    destruct (run B s1 es) as [[s2 t2]|] eqn:Hrest; [|discriminate].
    injection Hrun as <- <-.
    destruct (step_bookkeeping B s e s1 t1 Hstep) as [H1 _].
    specialize (IH s1 s2 t2 Hrest).
    rewrite fetches_app, scheduled_app. lia.
Qed.

Lemma run_scheduled B es :
  forall s s' t,
    active_has_stream s ->
    forallb well_formed_start es = true ->
    run B s es = Some (s', t) ->
    scheduled t = errors es /\ active_has_stream s'.
Proof.
  induction es as [|e es IH]; intros s s' t Inv Hwf Hrun; cbn in Hrun.
  - injection Hrun as <- <-. split; [reflexivity | exact Inv].
  - cbn in Hwf. apply andb_prop in Hwf. destruct Hwf as [He Hes].
    destruct (step B s e) as [[s1 t1]|] eqn:Hstep; [|discriminate].
    destruct (run B s1 es) as [[s2 t2]|] eqn:Hrest; [|discriminate].
    injection Hrun as <- <-.
    pose proof (step_active_has_stream B s e s1 t1 Inv He Hstep) as Inv1.
    pose proof (step_scheduled B s e s1 t1 Inv Hstep) as Hs1.
    destruct (IH s1 s2 t2 Inv1 Hes Hrest) as [Hs2 Inv2].
    split; [|exact Inv2].
    rewrite scheduled_app, Hs1, Hs2. unfold errors. cbn [filter].
    destruct (is_agent_error e); reflexivity.
Qed.

(** In every run of a session, each endpoint fetch made after the
    connection is the firing of a reconnection timer: the timers still
    pending plus the fetches made equal the timers set. *)
Theorem fetches_match_reconnection_timers B es s t :
  run B (fst connected) es = Some (s, t) ->
  (pending_setups s + fetches t = scheduled t)%nat.
Proof. intros H. exact (run_bookkeeping B es (fst connected) s t H). Qed.

(** When every start frame carries its stream id, an active session
    always has a stream id, so the close handler never schedules a
    reconnection: the reconnection timers set are exactly one per error
    event of an agent socket, and the endpoint is fetched again at most
    that many times. *)
Theorem reconnections_bounded_by_error_events B es s t :
  forallb well_formed_start es = true ->
  run B (fst connected) es = Some (s, t) ->
  scheduled t = errors es /\
  (fetches t <= errors es)%nat /\
  active_has_stream s.
Proof.
  intros Hwf Hrun.
  assert (Inv : active_has_stream (fst connected)) by (intros H; discriminate H).
  destruct (run_scheduled B es (fst connected) s t Inv Hwf Hrun) as [H1 H2].
  pose proof (run_bookkeeping B es (fst connected) s t Hrun) as H3.
  change (pending_setups (fst connected)) with 0%nat in H3.
  split; [exact H1|]. split; [lia | exact H2].
Qed.

(** One event, whatever the session: a fetch is made only by a
    reconnection timer that fires; a socket is created only when a fetch
    settles with a URL the constructor accepts; a reconnection timer is
    set only by an error event or by a close event with a code other than
    1000, always for 3000 ms; the grace timer only by a close event,
    always for 2000 ms; and an exception escapes only the open handler,
    when the session holds no socket or holds another socket, one that
    is still connecting, on which the send throws. *)
Theorem bookkeeping_by_event B s e s1 t1 :
  step B s e = Some (s1, t1) -> Forall (bookkeeping_call s e) t1.
Proof. intros H. exact (proj2 (step_bookkeeping B s e s1 t1 H)). Qed.

Lemma fetches_match_reconnection_timers_witness :
  exists s t,
    run refuse (fst connected) failing_call = Some (s, t) /\
    (pending_setups s + fetches t = scheduled t)%nat /\
    scheduled t = 1%nat.
Proof.
  assert (H : exists s t, run refuse (fst connected) failing_call = Some (s, t)
                          /\ scheduled t = 1%nat)
    by (do 2 eexists; split; vm_compute; reflexivity).
  destruct H as (s & t & Hrun & Hn).
  exists s, t. split; [exact Hrun|]. split; [|exact Hn].
  exact (fetches_match_reconnection_timers refuse failing_call s t Hrun).
Defined.

Lemma reconnections_bounded_by_error_events_witness :
  forallb well_formed_start failing_call = true /\
  exists s t,
    run refuse (fst connected) failing_call = Some (s, t) /\
    scheduled t = errors failing_call /\
    errors failing_call = 1%nat.
Proof.
  split; [reflexivity|].
  assert (H : exists s t, run refuse (fst connected) failing_call = Some (s, t))
    by (do 2 eexists; vm_compute; reflexivity).
  destruct H as (s & t & Hrun).
  exists s, t. split; [exact Hrun|]. split; [|reflexivity].
  exact (proj1 (reconnections_bounded_by_error_events refuse failing_call s t
                  eq_refl Hrun)).
Defined.

Lemma bookkeeping_by_event_witness :
  step refuse active_session (AgentError 0%nat) =
    Some (set_timers [(3000, RunSetup)] active_session,
          [LogError "[ElevenLabs] WebSocket error details:";
           SetTimeout RunSetup 3000]) /\
  Forall (bookkeeping_call active_session (AgentError 0%nat))
    [LogError "[ElevenLabs] WebSocket error details:";
     SetTimeout RunSetup 3000].
Proof.
  split; [reflexivity|].
  exact (bookkeeping_by_event refuse active_session (AgentError 0%nat) _ _
           eq_refl).
Defined.

Lemma step_keeps_stream_id B s e s1 t1 :
  is_start e = false -> step B s e = Some (s1, t1) ->
  streamSid s1 = streamSid s.
Proof.
  intros Hns Hstep. destruct e; cbn [step] in Hstep.
  - destruct (is_closed (wsReadyState s)); [discriminate|].
    step_result Hstep. apply (on_ws_message_flag B data s Hns).
  - destruct (is_closed (wsReadyState s)); [discriminate|].
    step_result Hstep. reflexivity.
  - destruct (is_closed (wsReadyState s)); [discriminate|].
    step_result Hstep. rewrite on_ws_close_cases.
    cbn [elevenLabsWs set_wsReadyState].
    destruct (elevenLabsWs s); [destruct (agent_is_open _)|]; reflexivity.
  - destruct (fetching s) as [|n]; [discriminate|].
    step_result Hstep. destruct r; reflexivity.
  - destruct (agent_state s c) as [[]|]; try discriminate.
    step_result Hstep. rewrite on_agent_open_cases.
    destruct (elevenLabsWs _) as [k|];
      [destruct (agent_state _ k) as [[]|]|]; reflexivity.
  - destruct (agent_state s c) as [[]|]; try discriminate;
      step_result Hstep;
      destruct (agent_message_no_bookkeeping s data) as (-> & _); reflexivity.
  - destruct (agent_state s c) as [[]|]; try discriminate;
      step_result Hstep; reflexivity.
  - destruct (agent_state s c) as [[]|]; try discriminate;
      step_result Hstep;
      rewrite on_agent_close_cases;
      cbn [isCallActive streamSid set_agent_state set_agents];
      destruct (isCallActive s), (truthy (streamSid s));
      destruct (code =? 1000); reflexivity.
  - destruct (nth_error (timers s) i) as [[due a]|] eqn:Hi; [|discriminate].
    destruct (due <=? clock s); [|discriminate].
    step_result Hstep. destruct a; [reflexivity|].
    cbn [fire]. unfold handle. eval_with idtac.
    cbn [wsReadyState set_timers].
    destruct (is_open (wsReadyState s)); reflexivity.
  - destruct (0 <=? ms); [|discriminate].
    step_result Hstep. reflexivity.
Qed.

(** The stream id is written by start frames only: over any sequence of
    events without one (stop frames, closes of either socket, errors and
    timers included) it stays what it was.  It is never cleared. *)
Theorem stream_id_changes_only_on_start B es :
  forall s s' t,
    forallb (fun e => negb (is_start e)) es = true ->
    run B s es = Some (s', t) ->
    streamSid s' = streamSid s.
Proof.
  induction es as [|e es IH]; intros s s' t Hes Hrun; cbn in Hrun.
  - injection Hrun as <- <-. reflexivity.
  - cbn in Hes. apply andb_prop in Hes. destruct Hes as [He Hes].
    apply negb_true_iff in He.
    destruct (step B s e) as [[s1 t1]|] eqn:Hstep; [|discriminate].
    destruct (run B s1 es) as [[s2 t2]|] eqn:Hrest; [|discriminate].
    injection Hrun as <- <-.
    rewrite (IH s1 s2 t2 Hes Hrest).
    exact (step_keeps_stream_id B s e s1 t1 He Hstep).
Qed.

Lemma stream_id_changes_only_on_start_witness :
  exists s' t,
    run refuse active_session stopped_call = Some (s', t) /\
    isCallActive s' = false /\
    streamSid s' = Str "ST1".
Proof.
  assert (H : exists s' t,
             run refuse active_session stopped_call = Some (s', t) /\
             isCallActive s' = false)
    by (do 2 eexists; split; vm_compute; reflexivity).
  destruct H as (s' & t & Hrun & Ha).
  exists s', t. split; [exact Hrun|]. split; [exact Ha|].
  exact (stream_id_changes_only_on_start refuse stopped_call active_session
           s' t eq_refl Hrun).
Defined.

Lemma no_ws_send_before_start_witness :
  exists s t,
    run refuse (fst connected) early_audio = Some (s, t) /\
    streamSid s = Null /\ filter is_ws_send t = [].
Proof.
  assert (H : exists s t, run refuse (fst connected) early_audio = Some (s, t))
    by (do 2 eexists; vm_compute; reflexivity).
  destruct H as (s & t & Hrun).
  exists s, t. split; [exact Hrun|].
  exact (no_ws_send_before_start refuse early_audio s t eq_refl Hrun).
Defined.

Lemma session_holds_latest_socket_witness :
  exists s t,
    run refuse (fst connected) second_socket = Some (s, t) /\
    agent_state s 0%nat = Some OPEN /\
    exists c', elevenLabsWs s = Some c' /\ S c' = List.length (agents s).
Proof.
  assert (H : exists s t,
             run refuse (fst connected) second_socket = Some (s, t) /\
             agent_state s 0%nat = Some OPEN)
    by (do 2 eexists; split; vm_compute; reflexivity).
  destruct H as (s & t & Hrun & Hst).
  exists s, t. split; [exact Hrun|]. split; [exact Hst|].
  exact (session_holds_latest_socket refuse second_socket s t 0%nat OPEN
           Hrun Hst).
Defined.

(** *** Media frames, whatever the payload text *)

(** For a media frame whose payload is any string, valid base64 or not,
    handled while the agent socket is open: one message is sent on that
    socket, and its [user_audio_chunk] is a valid base64 string that
    decodes to the same bytes as the payload. *)
Theorem media_chunk_is_canonical
    B (s : State) (msg : value) (payload : string) (c : conn) :
  member msg "event" = Some (Str "media") ->
  opt_member (opt_member msg "media") "payload" = Str payload ->
  elevenLabsWs s = Some c ->
  agent_state s c = Some OPEN ->
  exists chunk,
    handle (on_ws_message B (Some msg)) s =
      (s, [Stdout "."; AgentSend c (Obj [("user_audio_chunk", Str chunk)])]) /\
    Base64.valid chunk = true /\
    Base64.decode chunk = Base64.decode payload.
Proof.
  intros Hev Hp Hc Hst.
  exists (Base64.reencode payload). split; [|split].
  - assert (Hopen : agent_is_open s = true)
      by (unfold agent_is_open; rewrite Hc, Hst; reflexivity).
    destruct (event_is_object _ _ Hev) as (fields & -> & Hl).
    cbn [member opt_member] in Hp.
    assert (Hm : member (lookup "media" fields) "payload" = Some (Str payload))
      by (apply opt_member_defined; [exact Hp | discriminate]).
    unfold on_ws_message, case_media, buffer_roundtrip, audioMessage.
    eval_with ltac:(rewrite ?Hl, ?Hopen, ?Hm, ?Hc, ?Hst).
    reflexivity.
  - apply Base64RoundTrip.reencode_is_valid.
  - apply Base64RoundTrip.decode_reencode.
Qed.

Lemma media_chunk_is_canonical_witness :
  Base64.valid "QQ" = false /\
  exists chunk,
    handle (on_ws_message refuse (Some (media_event (Str "QQ")))) active_session
      = (active_session,
         [Stdout "."; AgentSend 0%nat (Obj [("user_audio_chunk", Str chunk)])])
    /\ Base64.valid chunk = true
    /\ Base64.decode chunk = Base64.decode "QQ".
Proof.
  split; [reflexivity|].
  exact (media_chunk_is_canonical refuse active_session
           (media_event (Str "QQ")) "QQ" 0%nat eq_refl eq_refl eq_refl eq_refl).
Defined.

(** ** The signed URL *)

Import SignedUrl.

(** A setup creates a socket exactly when the response is ok, its body
    parses to a value other than [null], and the constructor accepts the
    [signed_url] of the body (which is [undefined] when the body has no
    such field).  In every other case (a network error, a status that is
    not ok whatever the body says, an unreadable body) the session is
    left as it was and only errors are logged. *)
Theorem socket_only_from_ok_response accepts (o : HttpOutcome) (s : State) :
  handle (setup_from_response accepts o) s =
    handle (setup_resume (settle accepts o)) s /\
  (forall url,
     settle accepts o = UrlAccepted url <->
     exists data v,
       o = Response true (Some data) /\
       member data "signed_url" = Some v /\ accepts v = Some url) /\
  (forall url,
     settle accepts o = UrlAccepted url ->
     filter is_new_socket (snd (handle (setup_from_response accepts o) s)) =
       [NewWebSocket (List.length (agents s)) url]) /\
  ((forall url, settle accepts o <> UrlAccepted url) ->
   fst (handle (setup_from_response accepts o) s) = s /\
   forallb (fun c => match c with LogError _ => true | _ => false end)
     (snd (handle (setup_from_response accepts o) s)) = true).
Proof.
  assert (E : handle (setup_from_response accepts o) s =
              handle (setup_resume (settle accepts o)) s).
  { unfold setup_from_response, getSignedUrl, setup_resume, settle.
    destruct o as [|[] [data|]]; try reflexivity.
    destruct data; try reflexivity.
    - cbn [unwrap member].
      destruct (accepts Undefined) eqn:Ha;
        eval_with ltac:(rewrite ?Ha); reflexivity.
    - cbn [unwrap member].
      destruct (accepts Undefined) eqn:Ha;
        eval_with ltac:(rewrite ?Ha); reflexivity.
    - cbn [unwrap member].
      destruct (accepts Undefined) eqn:Ha;
        eval_with ltac:(rewrite ?Ha); reflexivity.
    - cbn [unwrap member].
      destruct (accepts Undefined) eqn:Ha;
        eval_with ltac:(rewrite ?Ha); reflexivity.
    - cbn [unwrap member].
      destruct (accepts (lookup "signed_url" fields)) eqn:Ha;
        eval_with ltac:(rewrite ?Ha); reflexivity. }
  split; [exact E|]. split; [|split].
  - intros url. unfold settle. split.
    + destruct o as [|[] [data|]]; try discriminate.
      destruct (member data "signed_url") as [v|] eqn:Hm; [|discriminate].
      destruct (accepts v) as [u|] eqn:Ha; [|discriminate].
      intros H. injection H as ->. eauto.
    + intros (data & v & -> & Hm & Ha). rewrite Hm, Ha. reflexivity.
  - intros url H. rewrite E, H. reflexivity.
  - intros H. rewrite E.
    destruct (settle accepts o) as [| |url]; try (split; reflexivity).
    exfalso. exact (H url eq_refl).
Qed.

(** ** The HTTP routes *)

Import Routes.

(** A request whose body has no truthy [phone_number] (absent, empty,
    [null], [0]) is answered 400 with the error message; the telephony
    platform is not called and nothing is logged. *)
Theorem call_without_phone_number_is_refused
    ToString URL_accepts number calls_create (body host v : value) :
  member body "phone_number" = Some v ->
  truthy v = false ->
  outbound_call ToString URL_accepts number calls_create body host =
    ([], None, Send 400 (Obj [("error", Str "Phone number is required")])).
Proof.
  intros Hm Hv. unfold outbound_call. rewrite Hm, Hv. reflexivity.
Qed.

Lemma call_without_phone_number_is_refused_witness :
  member (Obj [("name", Str "Ana")]) "phone_number" = Some Undefined /\
  outbound_call print_other any_url "+15550000" (creates "CA1")
    (Obj [("name", Str "Ana")]) (Str "relay.example") =
    ([], None, Send 400 (Obj [("error", Str "Phone number is required")])).
Proof.
  split; [reflexivity|].
  apply (call_without_phone_number_is_refused print_other any_url "+15550000"
           (creates "CA1") (Obj [("name", Str "Ana")]) (Str "relay.example")
           Undefined); reflexivity.
Defined.

(** Whatever the request: the platform is called only with a truthy
    phone number, as [to], from the configured number, with the seven
    stream parameters in their order; and the reply is a 200 only when
    the platform created the call, whose [sid] the reply carries, with
    nothing logged. *)
Theorem call_reply_matches_platform
    ToString URL_accepts number calls_create (body host : value) :
  (forall r,
     snd (fst (outbound_call ToString URL_accepts number calls_create
                 body host)) = Some r ->
     member body "phone_number" = Some (to r) /\
     truthy (to r) = true /\
     from r = number /\
     map fst (snd (url r)) = parameter_names) /\
  (forall b,
     snd (outbound_call ToString URL_accepts number calls_create body host)
       = Send 200 b ->
     exists r call sid,
       snd (fst (outbound_call ToString URL_accepts number calls_create
                   body host)) = Some r /\
       calls_create r = Some call /\
       member call "sid" = Some sid /\
       b = Obj [("success", Bool true); ("message", Str "Call initiated");
                ("callSid", sid)] /\
       fst (fst (outbound_call ToString URL_accepts number calls_create
                   body host)) = []).
Proof.
  unfold outbound_call.
  destruct (member body "phone_number") as [phone|] eqn:Hm;
    [|split; [intros r H | intros b H]; discriminate H].
  destruct (truthy phone) eqn:Hp; cbn [negb];
    [|split; [intros r H | intros b H]; discriminate H].
  destruct (URL_accepts _);
    [|split; [intros r H | intros b H]; discriminate H].
  match goal with |- context [calls_create ?r] => set (request := r) end.
  destruct (calls_create request) as [call|] eqn:Hc.
  - destruct (member call "sid") as [sid|] eqn:Hs.
    + split.
      * intros r H. injection H as <-. cbn. auto.
      * intros b H. injection H as <-. exists request, call, sid. auto.
    + split.
      * intros r H. injection H as <-. cbn. auto.
      * intros b H. discriminate H.
  - split.
    + intros r H. injection H as <-. cbn. auto.
    + intros b H. discriminate H.
Qed.

(** The TwiML route reads back what the call route appended: from the
    query made of the pairs appended to the URL, it interpolates those
    same pairs, in the same order. *)
Theorem twiml_reads_back_call_parameters ToString (body : value) :
  twiml_parameters ToString (as_object (call_parameters ToString body)) =
  call_parameters ToString body.
Proof. reflexivity. Qed.





(** From the call request to the agent.  When the stream parameters
    reach the session as the TwiML route interpolated them from the query
    the call route built, the variables sent on open are: for [name],
    [organization] and [credit_amount], the field of the request body, or
    the default when the field is absent or empty; for [phone_number],
    the number called; for [client_id], the field of the body, or the
    call id when it is absent or empty.  [prompt] and [first_message]
    travel to the stream but are not sent to the agent. *)
Theorem variables_from_call_request
    ToString (body : value) (s : State) (c : conn) :
  elevenLabsWs s = Some c ->
  customParameters s =
    as_object (twiml_parameters ToString
                 (as_object (call_parameters ToString body))) ->
  exists vars,
    filter is_agent_send (snd (handle on_agent_open s)) =
      [AgentSend c (Obj [("type", Str "conversation_initiation_client_data");
                         ("dynamic_variables", Obj vars)])] /\
    map fst vars =
      ["client_id"; "phone_number"; "name"; "organization"; "credit_amount"] /\
    (forall k d,
       In (k, d) [("name", "Cliente"); ("organization", "Datágora");
                  ("credit_amount", "50000")] ->
       lookup k vars = Str (or_else (carried ToString body k (Str d)) d)) /\
    lookup "phone_number" vars =
      Str (or_else (to_string ToString (opt_member body "phone_number"))
             "unknown_number") /\
    lookup "client_id" vars =
      (if (carried ToString body "client_id" (Str EmptyString) =? EmptyString)%string
       then or (callSid s) (Str "unknown_call")
       else Str (carried ToString body "client_id" (Str EmptyString))).
Proof.
  intros Hc Hp. destruct (on_agent_open_send s c Hc) as [_ Hsend].
  eexists.
  split; [rewrite Hsend; unfold initialConfig, dynamic_variables;
          rewrite Hp; reflexivity|].
  split; [reflexivity|].
  assert (T : forall v d : string, or (Str v) (Str d) = Str (or_else v d)).
  { intros v d. unfold or, or_else. cbn. destruct (v =? EmptyString)%string;
      reflexivity. }
  split; [|split].
  - intros k d Hin. cbn in Hin.
    destruct Hin as [H | [H | [H | []]]]; injection H as <- <-;
      cbn; apply T.
  - cbn. apply T.
  - cbn [lookup String.eqb Ascii.eqb Bool.eqb opt_member member as_object
         map fst snd twiml_parameters call_parameters parameter_names
         call_defaults to_string default].
    unfold or. cbn [truthy].
    destruct (carried ToString body "client_id" (Str EmptyString)
              =? EmptyString)%string eqn:E; cbn [negb].
    + reflexivity.
    + cbn [truthy]. rewrite E. reflexivity.
Qed.

Lemma variables_from_call_request_witness :
  exists vars,
    filter is_agent_send
      (snd (handle on_agent_open
              (set_customParameters
                 (as_object (call_parameters print_other call_Ana))
                 active_session))) =
      [AgentSend 0%nat
         (Obj [("type", Str "conversation_initiation_client_data");
               ("dynamic_variables", Obj vars)])] /\
    lookup "name" vars = Str "Ana" /\
    lookup "organization" vars = Str "Datágora" /\
    lookup "credit_amount" vars = Str "50000".
Proof.
  destruct (variables_from_call_request print_other call_Ana
              (set_customParameters
                 (as_object (call_parameters print_other call_Ana))
                 active_session) 0%nat eq_refl eq_refl)
    as (vars & H1 & _ & H2 & _).
  exists vars. split; [exact H1|]. split; [|split].
  - apply (H2 "name" "Cliente"). cbn. tauto.
  - apply (H2 "organization" "Datágora"). cbn. tauto.
  - apply (H2 "credit_amount" "50000"). cbn. tauto.
Defined.

(** ** One agent connection at a time *)




















(** The bound rests on that order of events, not on a guard in the
    handlers, which keep no count of timers or sockets: were a socket to
    raise its error event twice, two timers would fire, two setups would
    run and two sockets would be in use, with no exception on the way. *)
Lemma second_error_event_doubles_the_connection :
  disciplined twice_failed_call = false /\
  exists s t,
    run refuse (fst connected) twice_failed_call = Some (s, t) /\
    agents s = [CLOSED; CONNECTING; OPEN] /\
    live s = 2%nat /\
    elevenLabsWs s = Some 2%nat /\
    in_use (failed twice_failed_call) s = 2%nat /\
    filter is_reconnect t =
      [NewWebSocket 0%nat "wss://agent/1"; Fetch; Fetch;
       NewWebSocket 1%nat "wss://agent/2";
       NewWebSocket 2%nat "wss://agent/3"] /\
    filter is_uncaught t = [].
Proof. split; [reflexivity|]. do 2 eexists. by_run. Qed.

